(** * hedera-smart-contracts: the mirror-node contract scanner and the wallet API

    A shallow embedding of

    - [tools/erc-repository-indexer/erc-contract-indexer/src/services/contractScanner.ts]
      (class [ContractScannerService]), and
    - [system-contract-dapp-playground/src/api/wallet/index.ts],

    together with the properties their specification states about them.

    Both files are asynchronous TypeScript that talks to the outside world
    (an HTTP server behind two axios clients, a wallet behind an ethers
    provider).  An [async] function is modelled as a state-passing function
    over a record of everything observable from outside: the requests
    issued, the console, the waits.  A promise settles as [Resolved v] or
    [Rejected e]; the scanner's retry recursion is unbounded, so its model
    takes fuel and answers [Pending] when the fuel is used up. *)

From Stdlib Require Import ZArith List String Bool Arith Lia.
Import ListNotations.

Local Open Scope string_scope.
Local Open Scope list_scope.

Set Warnings "-register-all".

(* ================================================================== *)
(** ** JavaScript values *)
(* ================================================================== *)

Module Js.

(** The dynamically typed values the two files handle: response bodies,
    thrown errors, the injected wallet object.  Numbers are the integers
    the code compares against (HTTP statuses, EIP-1193 error codes). *)
Inductive JsVal : Type :=
| JUndefined
| JNull
| JBool (b : bool)
| JNum (n : Z)
| JStr (s : string)
| JArr (items : list JsVal)
| JObj (fields : list (string * JsVal)).

(** Own properties of an object literal, first binding of a key. *)
Fixpoint lookup (k : string) (fields : list (string * JsVal)) : JsVal :=
  match fields with
  | [] => JUndefined
  | (k', v) :: rest => if String.eqb k k' then v else lookup k rest
  end.

(** [v.k].  Reading a property of [undefined] or [null] throws a
    [TypeError] ([None]); on an object it is the property or [undefined];
    the names read by this code ([result], [error], [code], [ethereum]) are
    no property of a primitive or of an array, where the read is
    [undefined]. *)
Definition get_prop (v : JsVal) (k : string) : option JsVal :=
  match v with
  | JUndefined | JNull => None
  | JObj fields => Some (lookup k fields)
  | _ => Some JUndefined
  end.

(** [Boolean(v)]: what [if (!v)] tests. *)
Definition truthy (v : JsVal) : bool :=
  match v with
  | JUndefined | JNull => false
  | JBool b => b
  | JNum n => negb (Z.eqb n 0)
  | JStr s => negb (String.eqb s "")
  | JArr _ | JObj _ => true
  end.

(** [v === n] for a number literal [n]. *)
Definition strict_eq_num (v : JsVal) (n : Z) : bool :=
  match v with
  | JNum m => Z.eqb m n
  | _ => false
  end.

(** [typeof v !== 'undefined'] *)
Definition is_defined (v : JsVal) : bool :=
  match v with
  | JUndefined => false
  | _ => true
  end.

End Js.

(* ================================================================== *)
(** ** contractScanner.ts *)
(* ================================================================== *)

Module Scanner.
Import Js.

(** *** Data *)

(** [ContractCallData] (schemas/MirrorNodeSchemas): the call descriptor
    posted to the call-execution endpoint, [{ to, data }]. *)
Record ContractCallData : Type := mkCallData {
  to : string;
  data : string
}.

(** The URL of a request: a plain path, or a list URL with its query
    parameters kept apart ([base?limit=..&next=..], [next] left out when
    there is no cursor). *)
Inductive Url : Type :=
| Path (p : string)
| ListUrl (base : string) (limit : Z) (cursor : option string).

(** A request as one of the two axios clients sends it. *)
Inductive Request : Type :=
| RestGet (url : Url)
| Web3Post (endpoint : string) (body : ContractCallData).

(** What axios hands back: [response.status], [response.data]. *)
Record AxiosResponse : Type := mkResponse {
  status : Z;
  body : JsVal
}.

(** What can be thrown inside the scanner: an [AxiosError], whose
    [response] is missing on a network error, or the [TypeError] of a
    property read on [null]. *)
Inductive JsError : Type :=
| AxiosError (response : option AxiosResponse)
| TypeError (message : string).

(** How a request settles. *)
Inductive Reply : Type :=
| Fulfil (response : AxiosResponse)
| Reject (error : JsError).

(** An axios client, seen from the scanner: the reply to a request may
    depend on the request and on every request issued before it (most
    recent first). *)
Definition AxiosInstance : Type := list Request -> Request -> Reply.

(** The fields of [ContractScannerService]. *)
Record ContractScannerService : Type := mkService {
  mirrorNodeRestClient : AxiosInstance;
  mirrorNodeWeb3Client : AxiosInstance;
  scanContractLimit : Z
}.

(** A console line. *)
Inductive LogEntry : Type :=
| LogFetching (url : Url)
    (* console.log('Fetching contract batch from URL:', url) *)
| LogRateLimit (delay : Z)
    (* console.log(`Rate limit exceeded. Retrying in ${delay}ms...`) *)
| LogError (error : JsError).
    (* console.error('Error returned from the mirror node:', error) *)

Definition is_error_log (l : LogEntry) : bool :=
  match l with
  | LogError _ => true
  | _ => false
  end.

(** Everything the scanner does to the outside, most recent first. *)
Record World : Type := mkWorld {
  requests : list Request;
  console : list LogEntry;
  sleeps : list Z
}.

Definition empty_world : World := mkWorld [] [] [].

(** *** Promises *)

Inductive Outcome (A : Type) : Type :=
| Resolved (a : A)
| Rejected (e : JsError)
| Pending.

Arguments Resolved {A} a.
Arguments Rejected {A} e.
Arguments Pending {A}.

Definition Async (A : Type) : Type := World -> Outcome A * World.

Definition ret {A} (a : A) : Async A := fun w => (Resolved a, w).

Definition throw {A} (e : JsError) : Async A := fun w => (Rejected e, w).

Definition pending {A} : Async A := fun w => (Pending, w).

Definition bind {A B} (m : Async A) (k : A -> Async B) : Async B :=
  fun w =>
    match m w with
    | (Resolved a, w') => k a w'
    | (Rejected e, w') => (Rejected e, w')
    | (Pending, w') => (Pending, w')
    end.

(** [try { body } catch (error) { handler }] *)
Definition try_catch {A} (body : Async A) (handler : JsError -> Async A)
  : Async A :=
  fun w =>
    match body w with
    | (Rejected e, w') => handler e w'
    | settled => settled
    end.

Declare Scope async_scope.
Delimit Scope async_scope with async.
Notation "x <- m ;; k" := (bind m (fun x => k))
  (at level 61, m at next level, right associativity) : async_scope.
Notation "m ;;; k" := (bind m (fun _ => k))
  (at level 61, right associativity) : async_scope.
Local Open Scope async_scope.

(** *** Effects *)

Definition console_log (l : LogEntry) : Async unit :=
  fun w => (Resolved tt, mkWorld (requests w) (l :: console w) (sleeps w)).

Definition console_error (e : JsError) : Async unit :=
  console_log (LogError e).

(** [Helper.wait(ms)] *)
Definition wait (ms : Z) : Async unit :=
  fun w => (Resolved tt, mkWorld (requests w) (console w) (ms :: sleeps w)).

(** [client.get(url)] and [client.post(endpoint, body)]: the request is
    recorded and settles as the client decides. *)
Definition send (client : AxiosInstance) (r : Request) : Async AxiosResponse :=
  fun w =>
    let w' := mkWorld (r :: requests w) (console w) (sleeps w) in
    match client (requests w) r with
    | Fulfil response => (Resolved response, w')
    | Reject error => (Rejected error, w')
    end.

Definition axios_get (client : AxiosInstance) (url : Url) : Async AxiosResponse :=
  send client (RestGet url).

Definition axios_post (client : AxiosInstance) (endpoint : string)
  (callData : ContractCallData) : Async AxiosResponse :=
  send client (Web3Post endpoint callData).

(** [(error as AxiosError).response?.status] *)
Definition response_status (error : JsError) : option Z :=
  match error with
  | AxiosError (Some response) => Some (status response)
  | AxiosError None => None
  | TypeError _ => None
  end.

(** [error.response?.status === code] *)
Definition status_is (error : JsError) (code : Z) : bool :=
  match response_status error with
  | Some s => Z.eqb s code
  | None => false
  end.

(** A method of the class passed as a value: [retryMethod.name] and
    [retryMethod.call(this, param)]. *)
Record Method (P : Type) : Type := mkMethod {
  name : string;
  call : P -> Async JsVal
}.

Arguments mkMethod {P} name call.
Arguments name {P} m.
Arguments call {P} m param.

Section Service.

(** [utils/constants] *)
Variable GET_CONTRACT_ENDPOINT : string.
Variable CONTRACT_CALL_ENDPOINT : string.
Variable RETRY_DELAY_MS : Z.

(** [Helper.buildUrl] (utils/helper, not among the sources): how the list
    URL is put together from the cursor and the page-size bound. *)
Variable Helper_buildUrl : option string -> Z -> Url.

(** [this] *)
Variable this : ContractScannerService.

(** [this.contractCallRequest.name] *)
Definition contractCallRequest_name : string := "contractCallRequest".

(** [handleAxiosError(error, retryMethod, param)] *)
Definition handleAxiosError {P} (error : JsError) (retryMethod : Method P)
  (param : P) : Async JsVal :=
  let isRateLimitError := status_is error 429 in
  let isBadRequestError := status_is error 400 in
  if isRateLimitError then
    console_log (LogRateLimit RETRY_DELAY_MS) ;;;
    wait RETRY_DELAY_MS ;;;
    call retryMethod param
  else
    (if negb isBadRequestError
        && negb (String.eqb (name retryMethod) contractCallRequest_name)
     then console_error error
     else ret tt) ;;;
    ret JNull.

(** [fetchContracts(next = null)] *)
Fixpoint fetchContracts (fuel : nat) (next : option string) : Async JsVal :=
  match fuel with
  | O => pending
  | S fuel' =>
      let getAllContractPath := Helper_buildUrl next (scanContractLimit this) in
      console_log (LogFetching getAllContractPath) ;;;
      try_catch
        (response <- axios_get (mirrorNodeRestClient this) getAllContractPath ;;
         ret (body response))
        (fun error =>
           handleAxiosError error
             (mkMethod "fetchContracts" (fetchContracts fuel')) next)
  end.

(** [fetchContractObject(contractId)] *)
Fixpoint fetchContractObject (fuel : nat) (contractId : string) : Async JsVal :=
  match fuel with
  | O => pending
  | S fuel' =>
      try_catch
        (response <- axios_get (mirrorNodeRestClient this)
                       (Path (GET_CONTRACT_ENDPOINT ++ "/" ++ contractId)) ;;
         ret (body response))
        (fun error =>
           handleAxiosError error
             (mkMethod "fetchContractObject" (fetchContractObject fuel'))
             contractId)
  end.

(** [contractCallRequest(callData)] *)
Fixpoint contractCallRequest (fuel : nat) (callData : ContractCallData)
  : Async JsVal :=
  match fuel with
  | O => pending
  | S fuel' =>
      try_catch
        (response <- axios_post (mirrorNodeWeb3Client this)
                       CONTRACT_CALL_ENDPOINT callData ;;
         match get_prop (body response) "result" with
         | Some result => ret result
         | None => throw (TypeError "Cannot read properties of null")
         end)
        (fun error =>
           handleAxiosError error
             (mkMethod "contractCallRequest" (contractCallRequest fuel'))
             callData)
  end.

(** The request each operation issues for its parameter. *)
Definition list_request (next : option string) : Request :=
  RestGet (Helper_buildUrl next (scanContractLimit this)).

Definition detail_request (contractId : string) : Request :=
  RestGet (Path (GET_CONTRACT_ENDPOINT ++ "/" ++ contractId)).

Definition call_request (callData : ContractCallData) : Request :=
  Web3Post CONTRACT_CALL_ENDPOINT callData.

(** The line [fetchContracts] prints before its request. *)
Definition fetching_line (next : option string) : LogEntry :=
  LogFetching (Helper_buildUrl next (scanContractLimit this)).

End Service.

(** [response.data.result] when axios resolves, [null] once the
    [TypeError] of reading it off a body that is [null] or [undefined] has
    gone through the [catch] block. *)
Definition call_result (response : AxiosResponse) : JsVal :=
  match get_prop (body response) "result" with
  | Some result => result
  | None => JNull
  end.

(** *** Retrying: what a client answers to a request issued again and again *)

(** HTTP 429, as [handleAxiosError] recognises it. *)
Definition is_rate_limit (reply : Reply) : bool :=
  match reply with
  | Reject error => status_is error 429
  | Fulfil _ => false
  end.

(** The reply to [r] once [r] has been issued [n] more times on top of the
    history [h]. *)
Fixpoint reply_after (client : AxiosInstance) (h : list Request) (r : Request)
  (n : nat) : Reply :=
  match n with
  | O => client h r
  | S n' => reply_after client (r :: h) r n'
  end.

(** The first [n] issues of [r] on top of [h] are all answered 429. *)
Fixpoint throttled (client : AxiosInstance) (h : list Request) (r : Request)
  (n : nat) : bool :=
  match n with
  | O => true
  | S n' => is_rate_limit (client h r) && throttled client (r :: h) r n'
  end.

(** The world after one attempt that was answered 429: the request went
    out, the lines [pre] the operation prints before its request and the
    rate-limit line were printed, and the delay was waited. *)
Definition throttle_step (delay : Z) (r : Request) (pre : list LogEntry)
  (w : World) : World :=
  mkWorld (r :: requests w)
          (LogRateLimit delay :: pre ++ console w)
          (delay :: sleeps w).

Fixpoint throttle_steps (n : nat) (delay : Z) (r : Request)
  (pre : list LogEntry) (w : World) : World :=
  match n with
  | O => w
  | S n' => throttle_steps n' delay r pre (throttle_step delay r pre w)
  end.

(** The world after an attempt that settled otherwise. *)
Definition settle_step (r : Request) (lines : list LogEntry) (w : World)
  : World :=
  mkWorld (r :: requests w) (lines ++ console w) (sleeps w).

Definition error_logs (w : World) : list LogEntry :=
  filter is_error_log (console w).

(** The error lines an attempt on the list or detail path prints when it
    settles with [reply]. *)
Definition reported (reply : Reply) : list LogEntry :=
  match reply with
  | Fulfil _ => []
  | Reject error => if status_is error 400 then [] else [LogError error]
  end.

(** *** Clients to run the scanner against *)

(** A client that gives the same reply to everything. *)
Definition always (reply : Reply) : AxiosInstance := fun _ _ => reply.

(** [this] with both clients answering [reply] at once. *)
Definition answering (reply : Reply) (this : ContractScannerService)
  : ContractScannerService :=
  mkService (always reply) (always reply) (scanContractLimit this).

(** The rejection axios raises for a response with an error status. *)
Definition http_error (code : Z) : JsError :=
  AxiosError (Some (mkResponse code JNull)).

(** A service whose two clients reject everything with status [code]. *)
Definition rejecting (code : Z) : ContractScannerService :=
  mkService (always (Reject (http_error code)))
            (always (Reject (http_error code))) 100.

(** A client that answers the first [n] requests it sees with [first] and
    every later one with [later]. *)
Definition after_first (n : nat) (first later : Reply) : AxiosInstance :=
  fun h _ => if Nat.ltb (List.length h) n then first else later.

(** A service that is throttled: 429 to the first [n] requests, then
    [response] to every request. *)
Definition flaky (n : nat) (response : AxiosResponse) : ContractScannerService :=
  mkService (after_first n (Reject (http_error 429)) (Fulfil response))
            (after_first n (Reject (http_error 429)) (Fulfil response)) 100.

(** A probe call: [supportsInterface(0x80ac58cd)] on contract 0.0.999. *)
Definition probe : ContractCallData :=
  mkCallData "0x00000000000000000000000000000000000003e7"
             "0x01ffc9a780ac58cd".

(** A service that answers 429 to the first [n] requests and rejects
    every later one with [error]. *)
Definition failing_after (n : nat) (error : JsError) : ContractScannerService :=
  mkService (after_first n (Reject (http_error 429)) (Reject error))
            (after_first n (Reject (http_error 429)) (Reject error)) 100.

(** *** The list URL *)

(** Modelled from the spec: [Helper.buildUrl] (utils/helper) is not among
    the sources.  The specification has it build the list URL "from a fixed
    page-size bound and the given cursor (omitted when none)", a GET with
    the query parameters [limit] and [next]. *)
Definition buildUrl (GET_CONTRACT_ENDPOINT : string) (next : option string)
  (scanContractLimit : Z) : Url :=
  ListUrl GET_CONTRACT_ENDPOINT scanContractLimit next.

(** The [limit] and the cursor a URL carries in its query. *)
Definition url_limit (url : Url) : option Z :=
  match url with
  | ListUrl _ limit _ => Some limit
  | Path _ => None
  end.

Definition url_cursor (url : Url) : option string :=
  match url with
  | ListUrl _ _ cursor => cursor
  | Path _ => None
  end.

End Scanner.

(* ================================================================== *)
(** ** api/wallet/index.ts *)
(* ================================================================== *)

Module Wallet.
Import Js.

(** *** Data *)

(** How a promise of the provider settles; what is thrown is any value. *)
Inductive Settled : Type :=
| Fulfilled (value : JsVal)
| Failed (error : JsVal).

(** A JSON-RPC request handed to [walletProvider.send(method, params)]. *)
Record RpcCall : Type := mkRpc {
  method : string;
  params : JsVal
}.

(** [ethers.BrowserProvider], seen from this file: what [send] settles to
    may depend on the call and on every call sent before it (most recent
    first). *)
Definition BrowserProvider : Type := list RpcCall -> RpcCall -> Settled.

(** [IWalletResult] (types/common): every field is optional. *)
Record IWalletResult : Type := mkResult {
  err : option JsVal;
  balance : option JsVal;
  walletProvider : option BrowserProvider;
  accounts : option JsVal;
  currentChainId : option JsVal
}.

(** The object literals the functions return. *)
Definition result_err (e : JsVal) : IWalletResult :=
  mkResult (Some e) None None None None.

Definition result_balance (b : JsVal) : IWalletResult :=
  mkResult None (Some b) None None None.

Definition result_walletProvider (p : BrowserProvider) : IWalletResult :=
  mkResult None None (Some p) None None.

Definition result_accounts (a : JsVal) : IWalletResult :=
  mkResult None None None (Some a) None.

Definition result_currentChainId (c : JsVal) : IWalletResult :=
  mkResult None None None None (Some c).

(** A [console.error] line: the text, if any, and the value printed. *)
Record ErrorLine : Type := mkLine {
  text : string;
  printed : JsVal
}.

(** Everything the wallet functions do to the outside, most recent first:
    calls sent to the wallet, lines printed, wallet objects wrapped in a
    new provider. *)
Record World : Type := mkWorld {
  sent : list RpcCall;
  console : list ErrorLine;
  constructed : list JsVal
}.

Definition empty_world : World := mkWorld [] [] [].

(** *** Control *)

Inductive Outcome (A : Type) : Type :=
| Returned (a : A)
| Threw (e : JsVal).

Arguments Returned {A} a.
Arguments Threw {A} e.

Definition Run (A : Type) : Type := World -> Outcome A * World.

Definition ret {A} (a : A) : Run A := fun w => (Returned a, w).

Definition throw {A} (e : JsVal) : Run A := fun w => (Threw e, w).

Definition bind {A B} (m : Run A) (k : A -> Run B) : Run B :=
  fun w =>
    match m w with
    | (Returned a, w') => k a w'
    | (Threw e, w') => (Threw e, w')
    end.

(** [try { body } catch (err) { handler }] *)
Definition try_catch {A} (body : Run A) (handler : JsVal -> Run A) : Run A :=
  fun w =>
    match body w with
    | (Threw e, w') => handler e w'
    | returned => returned
    end.

Declare Scope run_scope.
Delimit Scope run_scope with run.
Notation "x <- m ;; k" := (bind m (fun x => k))
  (at level 61, m at next level, right associativity) : run_scope.
Notation "m ;;; k" := (bind m (fun _ => k))
  (at level 61, right associativity) : run_scope.
Local Open Scope run_scope.

(** The [TypeError] of a property read on [undefined] or [null]. *)
Definition type_error (property : string) : JsVal :=
  JObj [("name", JStr "TypeError");
        ("message", JStr ("Cannot read properties of undefined (reading '"
                            ++ property ++ "')"))].

(** [v.k] as a statement: it throws where [get_prop] has no value. *)
Definition prop (v : JsVal) (k : string) : Run JsVal :=
  match get_prop v k with
  | Some x => ret x
  | None => throw (type_error k)
  end.

(** [console.error(text, value)] *)
Definition console_error (text : string) (value : JsVal) : Run unit :=
  fun w =>
    (Returned tt, mkWorld (sent w) (mkLine text value :: console w)
                          (constructed w)).

(** [await walletProvider.send(method, params)] *)
Definition send (walletProvider : BrowserProvider) (method : string)
  (params : JsVal) : Run JsVal :=
  fun w =>
    let rpc := mkRpc method params in
    let w' := mkWorld (rpc :: sent w) (console w) (constructed w) in
    match walletProvider (sent w) rpc with
    | Fulfilled value => (Returned value, w')
    | Failed error => (Threw error, w')
    end.

Section Api.

(** [HEDERA_NETWORKS] (utils/common/constants) *)
Variable HEDERA_NETWORKS : JsVal.

(** [new ethers.BrowserProvider(walletObject)]: the provider ethers
    builds around a wallet object, or what its constructor throws. *)
Variable ethers_BrowserProvider : JsVal -> Outcome BrowserProvider.

(** The global [window]; [JUndefined] where there is none. *)
Variable window : JsVal.

Definition new_BrowserProvider (walletObject : JsVal) : Run BrowserProvider :=
  fun w =>
    (ethers_BrowserProvider walletObject,
     mkWorld (sent w) (console w) (walletObject :: constructed w)).

(** [getWalletObject()] *)
Definition getWalletObject : Run JsVal :=
  if is_defined window then
    ethereum <- prop window "ethereum" ;;
    ret ethereum
  else ret JUndefined.

(** [getWalletProvider()] *)
Definition getWalletProvider : Run IWalletResult :=
  walletObject <- getWalletObject ;;
  if negb (truthy walletObject) then ret (result_err (JStr "!HEDERA"))
  else
    walletProvider <- new_BrowserProvider walletObject ;;
    ret (result_walletProvider walletProvider).

(** [getBalance(walletProvider, account)] *)
Definition getBalance (walletProvider : BrowserProvider) (account : string)
  : Run IWalletResult :=
  try_catch
    (balance <- send walletProvider "eth_getBalance" (JArr [JStr account]) ;;
     ret (result_balance balance))
    (fun err =>
       console_error "" err ;;;
       ret (result_err err)).

(** [getCurrentChainId(walletProvider)] *)
Definition getCurrentChainId (walletProvider : BrowserProvider)
  : Run IWalletResult :=
  try_catch
    (currentChainId <- send walletProvider "eth_chainId" (JArr []) ;;
     ret (result_currentChainId currentChainId))
    (fun err => ret (result_err err)).

(** [requestAccount(walletProvider)] *)
Definition requestAccount (walletProvider : BrowserProvider)
  : Run IWalletResult :=
  try_catch
    (accounts <- send walletProvider "eth_requestAccounts" (JArr []) ;;
     ret (result_accounts accounts))
    (fun err => ret (result_err err)).

(** [addEthereumChain(walletProvider)] *)
Definition addEthereumChain (walletProvider : BrowserProvider)
  : Run IWalletResult :=
  try_catch
    (testnet <- prop HEDERA_NETWORKS "testnet" ;;
     chainIdHex <- prop testnet "chainIdHex" ;;
     chainName <- prop testnet "chainName" ;;
     nativeCurrency <- prop testnet "nativeCurrency" ;;
     rpcUrls <- prop testnet "rpcUrls" ;;
     blockExplorerUrls <- prop testnet "blockExplorerUrls" ;;
     let hederaTestnetParams :=
       JObj [("chainId", chainIdHex);
             ("chainName", chainName);
             ("nativeCurrency", nativeCurrency);
             ("rpcUrls", JArr [rpcUrls]);
             ("blockExplorerUrls", JArr [blockExplorerUrls])] in
     send walletProvider "wallet_addEthereumChain"
       (JArr [hederaTestnetParams]) ;;;
     ret (result_err JNull))
    (fun err =>
       console_error "Error adding Hedera Testnet chain:" err ;;;
       ret (result_err err)).

(** [switchToHederaTestnet(walletProvider)] *)
Definition switchToHederaTestnet (walletProvider : BrowserProvider)
  : Run IWalletResult :=
  try_catch
    (send walletProvider "wallet_switchEthereumChain"
       (JArr [JObj [("chainId", JStr "0x128")]]) ;;;
     ret (result_err JNull))
    (fun error =>
       inner <- prop error "error" ;;
       code <- prop inner "code" ;;
       if strict_eq_num code 4902 then
         try_catch
           (result <- addEthereumChain walletProvider ;;
            ret result)
           (fun addError =>
              console_error "Error adding Hedera Testnet chain:" addError ;;;
              ret (result_err addError))
       else
         console_error "Error switching to Hedera Testnet chain:" error ;;;
         ret (result_err error)).

End Api.

(** The call [switchToHederaTestnet] starts with. *)
Definition switch_call : RpcCall :=
  mkRpc "wallet_switchEthereumChain" (JArr [JObj [("chainId", JStr "0x128")]]).

(** *** Wallets to run the functions against *)

(** A provider that rejects every call with [error]. *)
Definition failing (error : JsVal) : BrowserProvider :=
  fun _ _ => Failed error.

(** The error ethers raises when the user dismisses the wallet prompt:
    code [ACTION_REJECTED], the RPC error under [info], no [error]
    property. *)
Definition action_rejected : JsVal :=
  JObj [("code", JStr "ACTION_REJECTED");
        ("reason", JStr "rejected");
        ("info", JObj [("error", JObj [("code", JNum 4001)])])].

(** A constructor that wraps any wallet object in a provider answering
    [null]. *)
Definition wrap_any (walletObject : JsVal) : Outcome BrowserProvider :=
  Returned (fun _ _ => Fulfilled JNull).

(** *** What the functions read and send *)

(** [error.error.code], where both reads go through. *)
Definition error_code (error : JsVal) : option JsVal :=
  match get_prop error "error" with
  | Some inner => get_prop inner "code"
  | None => None
  end.

(** [hederaTestnetParams], as [addEthereumChain] puts it together from the
    properties of [HEDERA_NETWORKS.testnet]. *)
Definition hederaTestnetParams (testnet : list (string * JsVal)) : JsVal :=
  JObj [("chainId", lookup "chainIdHex" testnet);
        ("chainName", lookup "chainName" testnet);
        ("nativeCurrency", lookup "nativeCurrency" testnet);
        ("rpcUrls", JArr [lookup "rpcUrls" testnet]);
        ("blockExplorerUrls", JArr [lookup "blockExplorerUrls" testnet])].

(** The call [addEthereumChain] sends. *)
Definition add_call (testnet : list (string * JsVal)) : RpcCall :=
  mkRpc "wallet_addEthereumChain" (JArr [hederaTestnetParams testnet]).

(** The world once [rpc] has been sent, and once a line has been
    printed. *)
Definition after_call (rpc : RpcCall) (w : World) : World :=
  mkWorld (rpc :: sent w) (console w) (constructed w).

Definition after_line (line : ErrorLine) (w : World) : World :=
  mkWorld (sent w) (line :: console w) (constructed w).

(** A provider that fulfils every call with [value]. *)
Definition fulfilling (value : JsVal) : BrowserProvider :=
  fun _ _ => Fulfilled value.

(** The error ethers raises for an RPC error it has no name for: code
    [UNKNOWN_ERROR], the RPC error under [error]. *)
Definition rpc_error (code : Z) : JsVal :=
  JObj [("code", JStr "UNKNOWN_ERROR");
        ("error", JObj [("code", JNum code)])].

(** A wallet that does not know the Hedera chain yet: switching fails
    with EIP-3085 code 4902, everything else goes through. *)
Definition without_hedera : BrowserProvider :=
  fun _ rpc =>
    if String.eqb (method rpc) "wallet_switchEthereumChain"
    then Failed (rpc_error 4902)
    else Fulfilled JNull.

(** A [HEDERA_NETWORKS] with a testnet entry. *)
Definition sample_testnet : list (string * JsVal) :=
  [("chainIdHex", JStr "0x128");
   ("chainName", JStr "Hedera Testnet");
   ("nativeCurrency",
    JObj [("name", JStr "HBAR"); ("symbol", JStr "HBAR");
          ("decimals", JNum 18)]);
   ("rpcUrls", JStr "https://testnet.hashio.io/api");
   ("blockExplorerUrls", JStr "https://hashscan.io/testnet")].

Definition sample_networks : JsVal :=
  JObj [("testnet", JObj sample_testnet)].

End Wallet.

(* ================================================================== *)
(** ** Properties of the contract scanner *)
(* ================================================================== *)

Module ScannerTheory.
Import Js Scanner.

Section Properties.

Variable GET_CONTRACT_ENDPOINT : string.
Variable CONTRACT_CALL_ENDPOINT : string.
Variable RETRY_DELAY_MS : Z.
Variable Helper_buildUrl : option string -> Z -> Url.

Local Abbreviation fetchContracts :=
  (fetchContracts RETRY_DELAY_MS Helper_buildUrl).
Local Abbreviation fetchContractObject :=
  (fetchContractObject GET_CONTRACT_ENDPOINT RETRY_DELAY_MS).
Local Abbreviation contractCallRequest :=
  (contractCallRequest CONTRACT_CALL_ENDPOINT RETRY_DELAY_MS).
Local Abbreviation handleAxiosError := (handleAxiosError RETRY_DELAY_MS).
Local Abbreviation list_request := (list_request Helper_buildUrl).
Local Abbreviation fetching_line := (fetching_line Helper_buildUrl).
Local Abbreviation detail_request := (detail_request GET_CONTRACT_ENDPOINT).
Local Abbreviation call_request := (call_request CONTRACT_CALL_ENDPOINT).

Ltac run_attempt H :=
  cbn [Scanner.fetchContracts Scanner.fetchContractObject
       Scanner.contractCallRequest];
  unfold try_catch, bind, console_log, axios_get, axios_post, send;
  cbn [requests console sleeps];
  unfold Scanner.list_request, Scanner.detail_request, Scanner.call_request,
    Scanner.fetching_line in *;
  rewrite H.

(** **** One attempt of [fetchContracts] *)

Lemma fetchContracts_fulfil this fuel next w response :
  mirrorNodeRestClient this (requests w) (list_request this next)
    = Fulfil response ->
  fetchContracts this (S fuel) next w
    = (Resolved (body response),
       settle_step (list_request this next)
         [fetching_line this next] w).
Proof.
  intros H. run_attempt H. reflexivity.
Qed.

Lemma fetchContracts_429 this fuel next w error :
  mirrorNodeRestClient this (requests w) (list_request this next)
    = Reject error ->
  status_is error 429 = true ->
  fetchContracts this (S fuel) next w
    = fetchContracts this fuel next
        (throttle_step RETRY_DELAY_MS (list_request this next)
           [fetching_line this next] w).
Proof.
  intros H H429. run_attempt H.
  unfold Scanner.handleAxiosError. rewrite H429. reflexivity.
Qed.

Lemma fetchContracts_failure this fuel next w error :
  mirrorNodeRestClient this (requests w) (list_request this next)
    = Reject error ->
  status_is error 429 = false ->
  fetchContracts this (S fuel) next w
    = (Resolved JNull,
       settle_step (list_request this next)
         ((if status_is error 400 then [] else [LogError error])
          ++ [fetching_line this next]) w).
Proof.
  intros H H429. run_attempt H.
  unfold Scanner.handleAxiosError. rewrite H429.
  destruct (status_is error 400); reflexivity.
Qed.

(** **** One attempt of [fetchContractObject] *)

Lemma fetchContractObject_fulfil this fuel contractId w response :
  mirrorNodeRestClient this (requests w) (detail_request contractId)
    = Fulfil response ->
  fetchContractObject this (S fuel) contractId w
    = (Resolved (body response),
       settle_step (detail_request contractId) [] w).
Proof.
  intros H. run_attempt H. reflexivity.
Qed.

Lemma fetchContractObject_429 this fuel contractId w error :
  mirrorNodeRestClient this (requests w) (detail_request contractId)
    = Reject error ->
  status_is error 429 = true ->
  fetchContractObject this (S fuel) contractId w
    = fetchContractObject this fuel contractId
        (throttle_step RETRY_DELAY_MS (detail_request contractId) [] w).
Proof.
  intros H H429. run_attempt H.
  unfold Scanner.handleAxiosError. rewrite H429. reflexivity.
Qed.

Lemma fetchContractObject_failure this fuel contractId w error :
  mirrorNodeRestClient this (requests w) (detail_request contractId)
    = Reject error ->
  status_is error 429 = false ->
  fetchContractObject this (S fuel) contractId w
    = (Resolved JNull,
       settle_step (detail_request contractId)
         (if status_is error 400 then [] else [LogError error]) w).
Proof.
  intros H H429. run_attempt H.
  unfold Scanner.handleAxiosError. rewrite H429.
  destruct (status_is error 400); reflexivity.
Qed.

(** **** One attempt of [contractCallRequest] *)

Lemma contractCallRequest_fulfil this fuel callData w response :
  mirrorNodeWeb3Client this (requests w) (call_request callData)
    = Fulfil response ->
  contractCallRequest this (S fuel) callData w
    = (Resolved (call_result response),
       settle_step (call_request callData) [] w).
Proof.
  intros H. run_attempt H. unfold call_result.
  destruct (get_prop (body response) "result"); reflexivity.
Qed.

Lemma contractCallRequest_429 this fuel callData w error :
  mirrorNodeWeb3Client this (requests w) (call_request callData)
    = Reject error ->
  status_is error 429 = true ->
  contractCallRequest this (S fuel) callData w
    = contractCallRequest this fuel callData
        (throttle_step RETRY_DELAY_MS (call_request callData) [] w).
Proof.
  intros H H429. run_attempt H.
  unfold Scanner.handleAxiosError. rewrite H429. reflexivity.
Qed.

Lemma contractCallRequest_failure this fuel callData w error :
  mirrorNodeWeb3Client this (requests w) (call_request callData)
    = Reject error ->
  status_is error 429 = false ->
  contractCallRequest this (S fuel) callData w
    = (Resolved JNull, settle_step (call_request callData) [] w).
Proof.
  intros H H429. run_attempt H.
  unfold Scanner.handleAxiosError. rewrite H429.
  destruct (status_is error 400); reflexivity.
Qed.

(** **** Any number of throttled attempts *)

Lemma repeat_shift {A} (a : A) (n : nat) (l : list A) :
  repeat a n ++ a :: l = a :: repeat a n ++ l.
Proof.
  induction n as [|n IH]; simpl; [reflexivity | now rewrite IH].
Qed.

Lemma throttle_steps_requests n delay r pre w :
  requests (throttle_steps n delay r pre w) = repeat r n ++ requests w.
Proof.
  revert w. induction n as [|n IH]; intros w; simpl; [reflexivity|].
  rewrite IH. simpl. apply repeat_shift.
Qed.

Lemma reply_after_steps client n delay r pre w :
  client (requests (throttle_steps n delay r pre w)) r
    = reply_after client (requests w) r n.
Proof.
  revert w. induction n as [|n IH]; intros w; simpl; [reflexivity|].
  now rewrite IH.
Qed.

Lemma throttled_head client h r n :
  throttled client h r (S n) = true ->
  exists error,
    client h r = Reject error /\ status_is error 429 = true
    /\ throttled client (r :: h) r n = true.
Proof.
  simpl. intros H. apply andb_prop in H as [H1 H2].
  destruct (client h r) as [response|error]; simpl in H1; [discriminate|].
  now exists error.
Qed.

Lemma fetchContracts_retry this n fuel next w :
  throttled (mirrorNodeRestClient this) (requests w)
    (list_request this next) n = true ->
  fetchContracts this (n + fuel) next w
    = fetchContracts this fuel next
        (throttle_steps n RETRY_DELAY_MS (list_request this next)
           [fetching_line this next] w).
Proof.
  revert w. induction n as [|n IH]; intros w H; [reflexivity|].
  apply throttled_head in H as (error & Hr & H429 & Hn).
  change (S n + fuel)%nat with (S (n + fuel)).
  rewrite (fetchContracts_429 _ _ _ _ _ Hr H429). now apply IH.
Qed.

Lemma fetchContractObject_retry this n fuel contractId w :
  throttled (mirrorNodeRestClient this) (requests w)
    (detail_request contractId) n = true ->
  fetchContractObject this (n + fuel) contractId w
    = fetchContractObject this fuel contractId
        (throttle_steps n RETRY_DELAY_MS (detail_request contractId) [] w).
Proof.
  revert w. induction n as [|n IH]; intros w H; [reflexivity|].
  apply throttled_head in H as (error & Hr & H429 & Hn).
  change (S n + fuel)%nat with (S (n + fuel)).
  rewrite (fetchContractObject_429 _ _ _ _ _ Hr H429). now apply IH.
Qed.

Lemma contractCallRequest_retry this n fuel callData w :
  throttled (mirrorNodeWeb3Client this) (requests w)
    (call_request callData) n = true ->
  contractCallRequest this (n + fuel) callData w
    = contractCallRequest this fuel callData
        (throttle_steps n RETRY_DELAY_MS (call_request callData) [] w).
Proof.
  revert w. induction n as [|n IH]; intros w H; [reflexivity|].
  apply throttled_head in H as (error & Hr & H429 & Hn).
  change (S n + fuel)%nat with (S (n + fuel)).
  rewrite (contractCallRequest_429 _ _ _ _ _ Hr H429). now apply IH.
Qed.

(** **** The requests an operation issues *)

Lemma fetchContracts_requests this fuel next w :
  exists k, (k <= fuel)%nat /\ (0 < fuel -> 0 < k)%nat /\
    requests (snd (fetchContracts this fuel next w))
      = repeat (list_request this next) k ++ requests w.
Proof.
  revert w. induction fuel as [|fuel IH]; intros w.
  - exists 0%nat. repeat split; [lia|lia].
  - destruct (mirrorNodeRestClient this (requests w) (list_request this next))
      as [response|error] eqn:Hr.
    + rewrite (fetchContracts_fulfil _ _ _ _ _ Hr).
      exists 1%nat. repeat split; lia.
    + destruct (status_is error 429) eqn:H429.
      * rewrite (fetchContracts_429 _ _ _ _ _ Hr H429).
        destruct (IH (throttle_step RETRY_DELAY_MS (list_request this next)
                        [fetching_line this next] w)) as (k & Hk & _ & Hreq).
        exists (S k). rewrite Hreq. cbn [throttle_step requests repeat app].
        rewrite repeat_shift. repeat split; lia.
      * rewrite (fetchContracts_failure _ _ _ _ _ Hr H429).
        exists 1%nat. repeat split; lia.
Qed.

Lemma fetchContractObject_requests this fuel contractId w :
  exists k, (k <= fuel)%nat /\ (0 < fuel -> 0 < k)%nat /\
    requests (snd (fetchContractObject this fuel contractId w))
      = repeat (detail_request contractId) k ++ requests w.
Proof.
  revert w. induction fuel as [|fuel IH]; intros w.
  - exists 0%nat. repeat split; [lia|lia].
  - destruct (mirrorNodeRestClient this (requests w)
                (detail_request contractId)) as [response|error] eqn:Hr.
    + rewrite (fetchContractObject_fulfil _ _ _ _ _ Hr).
      exists 1%nat. repeat split; lia.
    + destruct (status_is error 429) eqn:H429.
      * rewrite (fetchContractObject_429 _ _ _ _ _ Hr H429).
        destruct (IH (throttle_step RETRY_DELAY_MS (detail_request contractId)
                        [] w)) as (k & Hk & _ & Hreq).
        exists (S k). rewrite Hreq. cbn [throttle_step requests repeat app].
        rewrite repeat_shift. repeat split; lia.
      * rewrite (fetchContractObject_failure _ _ _ _ _ Hr H429).
        exists 1%nat. repeat split; lia.
Qed.

Lemma contractCallRequest_requests this fuel callData w :
  exists k, (k <= fuel)%nat /\ (0 < fuel -> 0 < k)%nat /\
    requests (snd (contractCallRequest this fuel callData w))
      = repeat (call_request callData) k ++ requests w.
Proof.
  revert w. induction fuel as [|fuel IH]; intros w.
  - exists 0%nat. repeat split; [lia|lia].
  - destruct (mirrorNodeWeb3Client this (requests w)
                (call_request callData)) as [response|error] eqn:Hr.
    + rewrite (contractCallRequest_fulfil _ _ _ _ _ Hr).
      exists 1%nat. repeat split; lia.
    + destruct (status_is error 429) eqn:H429.
      * rewrite (contractCallRequest_429 _ _ _ _ _ Hr H429).
        destruct (IH (throttle_step RETRY_DELAY_MS (call_request callData)
                        [] w)) as (k & Hk & _ & Hreq).
        exists (S k). rewrite Hreq. cbn [throttle_step requests repeat app].
        rewrite repeat_shift. repeat split; lia.
      * rewrite (contractCallRequest_failure _ _ _ _ _ Hr H429).
        exists 1%nat. repeat split; lia.
Qed.

(** **** No operation rejects *)

Lemma fetchContracts_never_rejects this fuel next w e :
  fst (fetchContracts this fuel next w) <> Rejected e.
Proof.
  revert w. induction fuel as [|fuel IH]; intros w; [discriminate|].
  destruct (mirrorNodeRestClient this (requests w) (list_request this next))
    as [response|error] eqn:Hr.
  - rewrite (fetchContracts_fulfil _ _ _ _ _ Hr). discriminate.
  - destruct (status_is error 429) eqn:H429.
    + rewrite (fetchContracts_429 _ _ _ _ _ Hr H429). apply IH.
    + rewrite (fetchContracts_failure _ _ _ _ _ Hr H429). discriminate.
Qed.

Lemma fetchContractObject_never_rejects this fuel contractId w e :
  fst (fetchContractObject this fuel contractId w) <> Rejected e.
Proof.
  revert w. induction fuel as [|fuel IH]; intros w; [discriminate|].
  destruct (mirrorNodeRestClient this (requests w) (detail_request contractId))
    as [response|error] eqn:Hr.
  - rewrite (fetchContractObject_fulfil _ _ _ _ _ Hr). discriminate.
  - destruct (status_is error 429) eqn:H429.
    + rewrite (fetchContractObject_429 _ _ _ _ _ Hr H429). apply IH.
    + rewrite (fetchContractObject_failure _ _ _ _ _ Hr H429). discriminate.
Qed.

Lemma contractCallRequest_never_rejects this fuel callData w e :
  fst (contractCallRequest this fuel callData w) <> Rejected e.
Proof.
  revert w. induction fuel as [|fuel IH]; intros w; [discriminate|].
  destruct (mirrorNodeWeb3Client this (requests w) (call_request callData))
    as [response|error] eqn:Hr.
  - rewrite (contractCallRequest_fulfil _ _ _ _ _ Hr). discriminate.
  - destruct (status_is error 429) eqn:H429.
    + rewrite (contractCallRequest_429 _ _ _ _ _ Hr H429). apply IH.
    + rewrite (contractCallRequest_failure _ _ _ _ _ Hr H429). discriminate.
Qed.

(** **** The reply that ends the retries decides the result *)

Lemma split_fuel n fuel : (n < fuel)%nat -> fuel = (n + S (fuel - S n))%nat.
Proof. lia. Qed.

Lemma fetchContracts_after_retries this n fuel next w :
  (n < fuel)%nat ->
  throttled (mirrorNodeRestClient this) (requests w)
    (list_request this next) n = true ->
  is_rate_limit (reply_after (mirrorNodeRestClient this) (requests w)
                   (list_request this next) n) = false ->
  fst (fetchContracts this fuel next w)
    = Resolved
        match reply_after (mirrorNodeRestClient this) (requests w)
                (list_request this next) n with
        | Fulfil response => body response
        | Reject _ => JNull
        end.
Proof.
  intros Hlt Hth. rewrite (split_fuel _ _ Hlt).
  rewrite (fetchContracts_retry _ _ _ _ _ Hth).
  rewrite <- (reply_after_steps _ n RETRY_DELAY_MS _ [fetching_line this next]).
  destruct (mirrorNodeRestClient this _ _) as [response|error] eqn:Hr;
    cbn [is_rate_limit]; intros H429.
  - now rewrite (fetchContracts_fulfil _ _ _ _ _ Hr).
  - now rewrite (fetchContracts_failure _ _ _ _ _ Hr H429).
Qed.

Lemma fetchContractObject_after_retries this n fuel contractId w :
  (n < fuel)%nat ->
  throttled (mirrorNodeRestClient this) (requests w)
    (detail_request contractId) n = true ->
  is_rate_limit (reply_after (mirrorNodeRestClient this) (requests w)
                   (detail_request contractId) n) = false ->
  fst (fetchContractObject this fuel contractId w)
    = Resolved
        match reply_after (mirrorNodeRestClient this) (requests w)
                (detail_request contractId) n with
        | Fulfil response => body response
        | Reject _ => JNull
        end.
Proof.
  intros Hlt Hth. rewrite (split_fuel _ _ Hlt).
  rewrite (fetchContractObject_retry _ _ _ _ _ Hth).
  rewrite <- (reply_after_steps _ n RETRY_DELAY_MS _ []).
  destruct (mirrorNodeRestClient this _ _) as [response|error] eqn:Hr;
    cbn [is_rate_limit]; intros H429.
  - now rewrite (fetchContractObject_fulfil _ _ _ _ _ Hr).
  - now rewrite (fetchContractObject_failure _ _ _ _ _ Hr H429).
Qed.

Lemma contractCallRequest_after_retries this n fuel callData w :
  (n < fuel)%nat ->
  throttled (mirrorNodeWeb3Client this) (requests w)
    (call_request callData) n = true ->
  is_rate_limit (reply_after (mirrorNodeWeb3Client this) (requests w)
                   (call_request callData) n) = false ->
  fst (contractCallRequest this fuel callData w)
    = Resolved
        match reply_after (mirrorNodeWeb3Client this) (requests w)
                (call_request callData) n with
        | Fulfil response => call_result response
        | Reject _ => JNull
        end.
Proof.
  intros Hlt Hth. rewrite (split_fuel _ _ Hlt).
  rewrite (contractCallRequest_retry _ _ _ _ _ Hth).
  rewrite <- (reply_after_steps _ n RETRY_DELAY_MS _ []).
  destruct (mirrorNodeWeb3Client this _ _) as [response|error] eqn:Hr;
    cbn [is_rate_limit]; intros H429.
  - now rewrite (contractCallRequest_fulfil _ _ _ _ _ Hr).
  - now rewrite (contractCallRequest_failure _ _ _ _ _ Hr H429).
Qed.

(** **** The claims that hold for every constant and every [buildUrl] *)

(** C9.  In [handleAxiosError] the rate-limit test comes first: an error
    with status 429 always logs the rate-limit line, waits
    [RETRY_DELAY_MS] and calls the retry method with the parameter it was
    given, whatever the method; so on each of the three paths, the call
    path included, an attempt answered 429 continues as a fresh attempt and
    neither returns [null] nor prints an error. *)
Theorem rate_limit_takes_precedence error :
  status_is error 429 = true ->
  (forall (P : Type) (retryMethod : Method P) (param : P) (w : World),
      handleAxiosError error retryMethod param w
      = call retryMethod param
          (mkWorld (requests w)
                   (LogRateLimit RETRY_DELAY_MS :: console w)
                   (RETRY_DELAY_MS :: sleeps w)))
  /\ (forall this fuel next w,
        mirrorNodeRestClient this (requests w) (list_request this next)
          = Reject error ->
        fetchContracts this (S fuel) next w
        = fetchContracts this fuel next
            (throttle_step RETRY_DELAY_MS (list_request this next)
               [fetching_line this next] w))
  /\ (forall this fuel contractId w,
        mirrorNodeRestClient this (requests w) (detail_request contractId)
          = Reject error ->
        fetchContractObject this (S fuel) contractId w
        = fetchContractObject this fuel contractId
            (throttle_step RETRY_DELAY_MS (detail_request contractId) [] w))
  /\ (forall this fuel callData w,
        mirrorNodeWeb3Client this (requests w) (call_request callData)
          = Reject error ->
        contractCallRequest this (S fuel) callData w
        = contractCallRequest this fuel callData
            (throttle_step RETRY_DELAY_MS (call_request callData) [] w)).
Proof.
  intros H429. repeat split.
  - intros P retryMethod param w.
    unfold Scanner.handleAxiosError. now rewrite H429.
  - intros. now apply (fetchContracts_429 _ _ _ _ error).
  - intros. now apply (fetchContractObject_429 _ _ _ _ error).
  - intros. now apply (contractCallRequest_429 _ _ _ _ error).
Qed.

(** C2.  If the server answers 429 to the first [n] attempts and a
    success to the next, each operation resolves to what it resolves to
    when that success is the answer to the first attempt. *)
Theorem retry_is_transparent this n fuel fuel' w response :
  (n < fuel)%nat ->
  (forall next,
      throttled (mirrorNodeRestClient this) (requests w)
        (list_request this next) n = true ->
      reply_after (mirrorNodeRestClient this) (requests w)
        (list_request this next) n = Fulfil response ->
      fst (fetchContracts this fuel next w)
      = fst (fetchContracts (answering (Fulfil response) this)
               (S fuel') next w))
  /\ (forall contractId,
        throttled (mirrorNodeRestClient this) (requests w)
          (detail_request contractId) n = true ->
        reply_after (mirrorNodeRestClient this) (requests w)
          (detail_request contractId) n = Fulfil response ->
        fst (fetchContractObject this fuel contractId w)
        = fst (fetchContractObject (answering (Fulfil response) this)
                 (S fuel') contractId w))
  /\ (forall callData,
        throttled (mirrorNodeWeb3Client this) (requests w)
          (call_request callData) n = true ->
        reply_after (mirrorNodeWeb3Client this) (requests w)
          (call_request callData) n = Fulfil response ->
        fst (contractCallRequest this fuel callData w)
        = fst (contractCallRequest (answering (Fulfil response) this)
                 (S fuel') callData w)).
Proof.
  intros Hlt. repeat split.
  - intros next Hth Hok.
    rewrite (fetchContracts_after_retries _ n) by (trivial; now rewrite Hok).
    rewrite Hok.
    now rewrite (fetchContracts_fulfil (answering (Fulfil response) this)
                   fuel' next w response eq_refl).
  - intros contractId Hth Hok.
    rewrite (fetchContractObject_after_retries _ n)
      by (trivial; now rewrite Hok).
    rewrite Hok.
    now rewrite (fetchContractObject_fulfil (answering (Fulfil response) this)
                   fuel' contractId w response eq_refl).
  - intros callData Hth Hok.
    rewrite (contractCallRequest_after_retries _ n)
      by (trivial; now rewrite Hok).
    rewrite Hok.
    now rewrite (contractCallRequest_fulfil (answering (Fulfil response) this)
                   fuel' callData w response eq_refl).
Qed.

(** C4, as the code has it.  No operation ever rejects, whatever the
    server does and however long it is run; and as soon as one attempt is
    answered with anything but 429 (a success, another status, a network
    error) the operation resolves, to a value or to [null]. *)
Theorem operations_settle_without_throwing this fuel w :
  (forall next,
      (forall e, fst (fetchContracts this fuel next w) <> Rejected e)
      /\ (forall n, (n < fuel)%nat ->
            throttled (mirrorNodeRestClient this) (requests w)
              (list_request this next) n = true ->
            is_rate_limit (reply_after (mirrorNodeRestClient this)
                             (requests w) (list_request this next) n) = false ->
            exists v, fst (fetchContracts this fuel next w) = Resolved v))
  /\ (forall contractId,
        (forall e, fst (fetchContractObject this fuel contractId w)
                   <> Rejected e)
        /\ (forall n, (n < fuel)%nat ->
              throttled (mirrorNodeRestClient this) (requests w)
                (detail_request contractId) n = true ->
              is_rate_limit (reply_after (mirrorNodeRestClient this)
                               (requests w) (detail_request contractId) n)
                = false ->
              exists v,
                fst (fetchContractObject this fuel contractId w) = Resolved v))
  /\ (forall callData,
        (forall e, fst (contractCallRequest this fuel callData w)
                   <> Rejected e)
        /\ (forall n, (n < fuel)%nat ->
              throttled (mirrorNodeWeb3Client this) (requests w)
                (call_request callData) n = true ->
              is_rate_limit (reply_after (mirrorNodeWeb3Client this)
                               (requests w) (call_request callData) n)
                = false ->
              exists v,
                fst (contractCallRequest this fuel callData w) = Resolved v)).
Proof.
  repeat split.
  - intros e. apply fetchContracts_never_rejects.
  - intros n Hlt Hth Hlast. eexists.
    now apply (fetchContracts_after_retries _ n).
  - intros e. apply fetchContractObject_never_rejects.
  - intros n Hlt Hth Hlast. eexists.
    now apply (fetchContractObject_after_retries _ n).
  - intros e. apply contractCallRequest_never_rejects.
  - intros n Hlt Hth Hlast. eexists.
    now apply (contractCallRequest_after_retries _ n).
Qed.

(** C5.  Every request an operation issues, the first and each retry, is
    the request of the parameter the operation was called with: the list
    URL of the same cursor, the detail path of the same contract id, the
    post of the same call descriptor. *)
Theorem retries_reuse_the_parameter this fuel w :
  (forall next, exists k,
      requests (snd (fetchContracts this fuel next w))
      = repeat (RestGet (Helper_buildUrl next (scanContractLimit this))) k
          ++ requests w)
  /\ (forall contractId, exists k,
        requests (snd (fetchContractObject this fuel contractId w))
        = repeat (RestGet (Path (GET_CONTRACT_ENDPOINT ++ "/" ++ contractId))) k
            ++ requests w)
  /\ (forall callData, exists k,
        requests (snd (contractCallRequest this fuel callData w))
        = repeat (Web3Post CONTRACT_CALL_ENDPOINT callData) k ++ requests w).
Proof.
  repeat split.
  - intros next.
    destruct (fetchContracts_requests this fuel next w) as (k & _ & _ & H).
    now exists k.
  - intros contractId.
    destruct (fetchContractObject_requests this fuel contractId w)
      as (k & _ & _ & H).
    now exists k.
  - intros callData.
    destruct (contractCallRequest_requests this fuel callData w)
      as (k & _ & _ & H).
    now exists k.
Qed.

(** C7.  When the call-execution endpoint answers with a success, at once
    or after any number of 429s, [contractCallRequest] resolves to the
    [result] property of the response body. *)
Theorem call_returns_inner_result this n fuel callData w response result :
  (n < fuel)%nat ->
  throttled (mirrorNodeWeb3Client this) (requests w)
    (call_request callData) n = true ->
  reply_after (mirrorNodeWeb3Client this) (requests w)
    (call_request callData) n = Fulfil response ->
  get_prop (body response) "result" = Some result ->
  fst (contractCallRequest this fuel callData w) = Resolved result.
Proof.
  intros Hlt Hth Hok Hres.
  rewrite (contractCallRequest_after_retries _ n)
    by (trivial; now rewrite Hok).
  rewrite Hok. unfold call_result. now rewrite Hres.
Qed.

(** **** What is printed when an attempt fails *)

(** A 400 on the call path is silent: [null], nothing printed. *)
Lemma call_bad_request_is_silent this fuel callData w error :
  mirrorNodeWeb3Client this (requests w) (call_request callData)
    = Reject error ->
  status_is error 400 = true ->
  fst (contractCallRequest this (S fuel) callData w) = Resolved JNull
  /\ console (snd (contractCallRequest this (S fuel) callData w)) = console w.
Proof.
  intros Hr H400.
  assert (H429 : status_is error 429 = false).
  { unfold status_is in *. destruct (response_status error); [|discriminate].
    apply Z.eqb_eq in H400. now subst. }
  now rewrite (contractCallRequest_failure _ _ _ _ _ Hr H429).
Qed.

(** No failure on the call path prints anything, whatever the error. *)
Lemma call_failure_is_never_logged this fuel callData w error :
  mirrorNodeWeb3Client this (requests w) (call_request callData)
    = Reject error ->
  status_is error 429 = false ->
  contractCallRequest this (S fuel) callData w
    = (Resolved JNull, settle_step (call_request callData) [] w).
Proof.
  apply contractCallRequest_failure.
Qed.

(** A 400 on the list and detail paths prints no error either. *)
Lemma bad_request_is_never_logged this fuel w error :
  status_is error 400 = true ->
  (forall next,
      mirrorNodeRestClient this (requests w) (list_request this next)
        = Reject error ->
      error_logs (snd (fetchContracts this (S fuel) next w)) = error_logs w)
  /\ (forall contractId,
        mirrorNodeRestClient this (requests w) (detail_request contractId)
          = Reject error ->
        error_logs (snd (fetchContractObject this (S fuel) contractId w))
          = error_logs w).
Proof.
  intros H400.
  assert (H429 : status_is error 429 = false).
  { unfold status_is in *. destruct (response_status error); [|discriminate].
    apply Z.eqb_eq in H400. now subst. }
  split.
  - intros next Hr. rewrite (fetchContracts_failure _ _ _ _ _ Hr H429).
    now rewrite H400.
  - intros contractId Hr.
    rewrite (fetchContractObject_failure _ _ _ _ _ Hr H429).
    now rewrite H400.
Qed.

End Properties.

(** **** The list URL, with [Helper.buildUrl] as the specification has it *)

(** C6.  With page-size bound [L = scanContractLimit], every request
    [fetchContracts] issues is a GET of the list URL whose [limit] is at
    most [L] and whose cursor is the [next] it was called with: the cursor
    is left out exactly when [next] is [null]. *)
Theorem list_url_limit_and_cursor RETRY_DELAY_MS GET_CONTRACT_ENDPOINT
  this fuel next w :
  let url := buildUrl GET_CONTRACT_ENDPOINT next (scanContractLimit this) in
  (exists k, (0 < fuel -> 0 < k)%nat
     /\ requests (snd (fetchContracts RETRY_DELAY_MS
                         (buildUrl GET_CONTRACT_ENDPOINT) this fuel next w))
        = repeat (RestGet url) k ++ requests w)
  /\ (exists limit, url_limit url = Some limit
                    /\ (limit <= scanContractLimit this)%Z)
  /\ (url_cursor url = None <-> next = None).
Proof.
  cbv zeta. split; [|split].
  - destruct (fetchContracts_requests RETRY_DELAY_MS
                (buildUrl GET_CONTRACT_ENDPOINT) this fuel next w)
      as (k & _ & Hpos & H).
    exists k. split; [exact Hpos | exact H].
  - exists (scanContractLimit this). split; [reflexivity | lia].
  - reflexivity.
Qed.

(** **** Runs against concrete servers *)

Lemma rate_limit_takes_precedence_witness :
  status_is (http_error 429) 429 = true
  /\ contractCallRequest "/api/v1/contracts/call" 1000 (rejecting 429)
       3 probe empty_world
     = contractCallRequest "/api/v1/contracts/call" 1000 (rejecting 429)
         2 probe
         (throttle_step 1000 (call_request "/api/v1/contracts/call" probe)
            [] empty_world).
Proof.
  split; [reflexivity|].
  destruct (rate_limit_takes_precedence "/api/v1/contracts"
              "/api/v1/contracts/call" 1000 (buildUrl "/api/v1/contracts")
              (http_error 429) eq_refl) as (_ & _ & _ & H).
  apply H. reflexivity.
Defined.

(** The detail fetch of contract 0.0.999 is answered 429 twice and then
    200 with a bytecode: the caller gets the bytecode. *)
Lemma retry_is_transparent_witness :
  let response := mkResponse 200 (JObj [("bytecode", JStr "0x6080")]) in
  (2 < 5)%nat
  /\ fst (fetchContractObject "/api/v1/contracts" 1000 (flaky 2 response)
            5 "0.0.999" empty_world)
     = fst (fetchContractObject "/api/v1/contracts" 1000
              (answering (Fulfil response) (flaky 2 response))
              1 "0.0.999" empty_world).
Proof.
  cbv zeta. split; [lia|].
  destruct (retry_is_transparent "/api/v1/contracts" "/api/v1/contracts/call"
              1000 (buildUrl "/api/v1/contracts")
              (flaky 2 (mkResponse 200 (JObj [("bytecode", JStr "0x6080")])))
              2 5 0 empty_world
              (mkResponse 200 (JObj [("bytecode", JStr "0x6080")]))
              ltac:(lia)) as (_ & H & _).
  apply H; reflexivity.
Defined.

Lemma operations_settle_without_throwing_witness :
  let this := flaky 2 (mkResponse 200 (JObj [("bytecode", JStr "0x6080")])) in
  (2 < 5)%nat
  /\ throttled (mirrorNodeRestClient this) []
       (detail_request "/api/v1/contracts" "0.0.999") 2 = true
  /\ is_rate_limit (reply_after (mirrorNodeRestClient this) []
                      (detail_request "/api/v1/contracts" "0.0.999") 2) = false
  /\ exists v,
       fst (fetchContractObject "/api/v1/contracts" 1000 this
              5 "0.0.999" empty_world) = Resolved v.
Proof.
  cbv zeta. split; [lia|]. split; [reflexivity|]. split; [reflexivity|].
  destruct (operations_settle_without_throwing "/api/v1/contracts"
              "/api/v1/contracts/call" 1000 (buildUrl "/api/v1/contracts")
              (flaky 2 (mkResponse 200 (JObj [("bytecode", JStr "0x6080")])))
              5 empty_world) as (_ & H & _).
  destruct (H "0.0.999") as (_ & Hsettles).
  apply (Hsettles 2%nat); [lia | reflexivity | reflexivity].
Defined.

Lemma call_returns_inner_result_witness :
  let response := mkResponse 200 (JObj [("result", JStr "0x01")]) in
  (1 < 2)%nat
  /\ get_prop (body response) "result" = Some (JStr "0x01")
  /\ fst (contractCallRequest "/api/v1/contracts/call" 1000 (flaky 1 response)
            2 probe empty_world) = Resolved (JStr "0x01").
Proof.
  cbv zeta. split; [lia|]. split; [reflexivity|].
  apply (call_returns_inner_result "/api/v1/contracts/call" 1000
           (flaky 1 (mkResponse 200 (JObj [("result", JStr "0x01")])))
           1 2 probe empty_world
           (mkResponse 200 (JObj [("result", JStr "0x01")])));
    [lia | reflexivity | reflexivity | reflexivity].
Defined.

(** While every attempt is answered 429 the operation stays pending,
    however much fuel it is given. *)
Lemma pending_while_throttled GET_CONTRACT_ENDPOINT RETRY_DELAY_MS fuel
  contractId w :
  fst (fetchContractObject GET_CONTRACT_ENDPOINT RETRY_DELAY_MS
         (rejecting 429) fuel contractId w) = Pending.
Proof.
  revert w. induction fuel as [|fuel IH]; intros w; [reflexivity|].
  rewrite (fetchContractObject_429 GET_CONTRACT_ENDPOINT RETRY_DELAY_MS
             (rejecting 429) fuel contractId w (http_error 429)
             eq_refl eq_refl).
  apply IH.
Qed.

(** C4 as stated fails: against a server that answers 429 to every
    attempt, the detail fetch of contract 0.0.999 never resolves. *)
Lemma sustained_rate_limit_never_settles :
  ~ exists fuel v,
      fst (fetchContractObject "/api/v1/contracts" 1000 (rejecting 429)
             fuel "0.0.999" empty_world) = Resolved v.
Proof.
  intros (fuel & v & H). rewrite pending_while_throttled in H. discriminate.
Qed.

(** C1 at a 400 on the detail and list paths: [null] comes back and no
    error is printed ([fetchContracts] prints only its own line). *)
Theorem bad_request_on_list_or_detail_is_not_logged :
  fetchContractObject "/api/v1/contracts" 1000 (rejecting 400)
    1 "0.0.999" empty_world
  = (Resolved JNull,
     mkWorld [RestGet (Path "/api/v1/contracts/0.0.999")] [] [])
  /\ (forall Helper_buildUrl,
        fetchContracts 1000 Helper_buildUrl (rejecting 400) 1 None empty_world
        = (Resolved JNull,
           mkWorld [RestGet (Helper_buildUrl None 100%Z)]
                   [LogFetching (Helper_buildUrl None 100%Z)] [])).
Proof.
  split; [reflexivity | intros; reflexivity].
Qed.

(** C3 at a 500 and at a network error on the call path: [null] comes
    back and nothing is printed, while the same 500 on the detail path
    prints the error. *)
Theorem call_failure_is_not_logged :
  contractCallRequest "/api/v1/contracts/call" 1000 (rejecting 500)
    1 probe empty_world
  = (Resolved JNull,
     mkWorld [Web3Post "/api/v1/contracts/call" probe] [] [])
  /\ contractCallRequest "/api/v1/contracts/call" 1000
       (answering (Reject (AxiosError None)) (rejecting 500))
       1 probe empty_world
     = (Resolved JNull,
        mkWorld [Web3Post "/api/v1/contracts/call" probe] [] [])
  /\ fetchContractObject "/api/v1/contracts" 1000 (rejecting 500)
       1 "0.0.999" empty_world
     = (Resolved JNull,
        mkWorld [RestGet (Path "/api/v1/contracts/0.0.999")]
                [LogError (http_error 500)] []).
Proof.
  repeat split.
Qed.

(** *** Further properties of the three operations *)

Section Accounting.

Variable GET_CONTRACT_ENDPOINT : string.
Variable CONTRACT_CALL_ENDPOINT : string.
Variable RETRY_DELAY_MS : Z.
Variable Helper_buildUrl : option string -> Z -> Url.

Local Abbreviation fetchContracts :=
  (fetchContracts RETRY_DELAY_MS Helper_buildUrl).
Local Abbreviation fetchContractObject :=
  (fetchContractObject GET_CONTRACT_ENDPOINT RETRY_DELAY_MS).
Local Abbreviation contractCallRequest :=
  (contractCallRequest CONTRACT_CALL_ENDPOINT RETRY_DELAY_MS).
Local Abbreviation list_request := (list_request Helper_buildUrl).
Local Abbreviation fetching_line := (fetching_line Helper_buildUrl).
Local Abbreviation detail_request := (detail_request GET_CONTRACT_ENDPOINT).
Local Abbreviation call_request := (call_request CONTRACT_CALL_ENDPOINT).

(** **** The world after throttled attempts *)

Lemma throttle_steps_sleeps n delay r pre w :
  sleeps (throttle_steps n delay r pre w) = repeat delay n ++ sleeps w.
Proof.
  revert w. induction n as [|n IH]; intros w; simpl; [reflexivity|].
  rewrite IH. simpl. apply repeat_shift.
Qed.

Lemma throttle_steps_error_logs n delay r pre w :
  filter is_error_log pre = [] ->
  error_logs (throttle_steps n delay r pre w) = error_logs w.
Proof.
  intros Hpre. revert w. induction n as [|n IH]; intros w; simpl;
    [reflexivity|].
  rewrite IH. unfold error_logs, throttle_step. simpl.
  now rewrite filter_app, Hpre.
Qed.

(** **** The world in which a run settles *)

Lemma fetchContracts_settled_world this n fuel next w :
  (n < fuel)%nat ->
  throttled (mirrorNodeRestClient this) (requests w)
    (list_request this next) n = true ->
  is_rate_limit (reply_after (mirrorNodeRestClient this) (requests w)
                   (list_request this next) n) = false ->
  snd (fetchContracts this fuel next w)
  = settle_step (list_request this next)
      (reported (reply_after (mirrorNodeRestClient this) (requests w)
                   (list_request this next) n)
       ++ [fetching_line this next])
      (throttle_steps n RETRY_DELAY_MS (list_request this next)
         [fetching_line this next] w).
Proof.
  intros Hlt Hth. rewrite (split_fuel _ _ Hlt).
  rewrite (fetchContracts_retry RETRY_DELAY_MS Helper_buildUrl
             this n _ next w Hth).
  rewrite <- (reply_after_steps _ n RETRY_DELAY_MS _ [fetching_line this next]).
  destruct (mirrorNodeRestClient this _ _) as [response|error] eqn:Hr;
    cbn [is_rate_limit reported]; intros H429.
  - now rewrite (fetchContracts_fulfil RETRY_DELAY_MS Helper_buildUrl
                   this _ next _ response Hr).
  - now rewrite (fetchContracts_failure RETRY_DELAY_MS Helper_buildUrl
                   this _ next _ error Hr H429).
Qed.

Lemma fetchContractObject_settled_world this n fuel contractId w :
  (n < fuel)%nat ->
  throttled (mirrorNodeRestClient this) (requests w)
    (detail_request contractId) n = true ->
  is_rate_limit (reply_after (mirrorNodeRestClient this) (requests w)
                   (detail_request contractId) n) = false ->
  snd (fetchContractObject this fuel contractId w)
  = settle_step (detail_request contractId)
      (reported (reply_after (mirrorNodeRestClient this) (requests w)
                   (detail_request contractId) n))
      (throttle_steps n RETRY_DELAY_MS (detail_request contractId) [] w).
Proof.
  intros Hlt Hth. rewrite (split_fuel _ _ Hlt).
  rewrite (fetchContractObject_retry GET_CONTRACT_ENDPOINT RETRY_DELAY_MS
             this n _ contractId w Hth).
  rewrite <- (reply_after_steps _ n RETRY_DELAY_MS _ []).
  destruct (mirrorNodeRestClient this _ _) as [response|error] eqn:Hr;
    cbn [is_rate_limit reported]; intros H429.
  - now rewrite (fetchContractObject_fulfil GET_CONTRACT_ENDPOINT
                   RETRY_DELAY_MS this _ contractId _ response Hr).
  - now rewrite (fetchContractObject_failure GET_CONTRACT_ENDPOINT
                   RETRY_DELAY_MS this _ contractId _ error Hr H429).
Qed.

Lemma contractCallRequest_settled_world this n fuel callData w :
  (n < fuel)%nat ->
  throttled (mirrorNodeWeb3Client this) (requests w)
    (call_request callData) n = true ->
  is_rate_limit (reply_after (mirrorNodeWeb3Client this) (requests w)
                   (call_request callData) n) = false ->
  snd (contractCallRequest this fuel callData w)
  = settle_step (call_request callData) []
      (throttle_steps n RETRY_DELAY_MS (call_request callData) [] w).
Proof.
  intros Hlt Hth. rewrite (split_fuel _ _ Hlt).
  rewrite (contractCallRequest_retry CONTRACT_CALL_ENDPOINT RETRY_DELAY_MS
             this n _ callData w Hth).
  rewrite <- (reply_after_steps _ n RETRY_DELAY_MS _ []).
  destruct (mirrorNodeWeb3Client this _ _) as [response|error] eqn:Hr;
    cbn [is_rate_limit]; intros H429.
  - now rewrite (contractCallRequest_fulfil CONTRACT_CALL_ENDPOINT
                   RETRY_DELAY_MS this _ callData _ response Hr).
  - now rewrite (contractCallRequest_failure CONTRACT_CALL_ENDPOINT
                   RETRY_DELAY_MS this _ callData _ error Hr H429).
Qed.

Lemma settled_requests r lines n delay pre w :
  requests (settle_step r lines (throttle_steps n delay r pre w))
  = repeat r (S n) ++ requests w.
Proof.
  cbn [settle_step requests]. now rewrite throttle_steps_requests.
Qed.

Lemma settled_sleeps r lines n delay pre w :
  sleeps (settle_step r lines (throttle_steps n delay r pre w))
  = repeat delay n ++ sleeps w.
Proof.
  cbn [settle_step sleeps]. apply throttle_steps_sleeps.
Qed.

(** X1.  A run whose first [n] attempts are answered 429 and whose next
    attempt is answered otherwise has issued exactly [n + 1] requests and
    has waited exactly [n] times, [RETRY_DELAY_MS] each time. *)
Theorem settled_run_accounting this n fuel w :
  (n < fuel)%nat ->
  (forall next,
      throttled (mirrorNodeRestClient this) (requests w)
        (list_request this next) n = true ->
      is_rate_limit (reply_after (mirrorNodeRestClient this) (requests w)
                       (list_request this next) n) = false ->
      requests (snd (fetchContracts this fuel next w))
        = repeat (list_request this next) (S n) ++ requests w
      /\ sleeps (snd (fetchContracts this fuel next w))
         = repeat RETRY_DELAY_MS n ++ sleeps w)
  /\ (forall contractId,
        throttled (mirrorNodeRestClient this) (requests w)
          (detail_request contractId) n = true ->
        is_rate_limit (reply_after (mirrorNodeRestClient this) (requests w)
                         (detail_request contractId) n) = false ->
        requests (snd (fetchContractObject this fuel contractId w))
          = repeat (detail_request contractId) (S n) ++ requests w
        /\ sleeps (snd (fetchContractObject this fuel contractId w))
           = repeat RETRY_DELAY_MS n ++ sleeps w)
  /\ (forall callData,
        throttled (mirrorNodeWeb3Client this) (requests w)
          (call_request callData) n = true ->
        is_rate_limit (reply_after (mirrorNodeWeb3Client this) (requests w)
                         (call_request callData) n) = false ->
        requests (snd (contractCallRequest this fuel callData w))
          = repeat (call_request callData) (S n) ++ requests w
        /\ sleeps (snd (contractCallRequest this fuel callData w))
           = repeat RETRY_DELAY_MS n ++ sleeps w).
Proof.
  intros Hlt. split; [|split].
  - intros next Hth Hlast.
    rewrite (fetchContracts_settled_world this n fuel next w Hlt Hth Hlast).
    split; [apply settled_requests | apply settled_sleeps].
  - intros contractId Hth Hlast.
    rewrite (fetchContractObject_settled_world this n fuel contractId w
               Hlt Hth Hlast).
    split; [apply settled_requests | apply settled_sleeps].
  - intros callData Hth Hlast.
    rewrite (contractCallRequest_settled_world this n fuel callData w
               Hlt Hth Hlast).
    split; [apply settled_requests | apply settled_sleeps].
Qed.

(** **** Runs that do not settle *)

Lemma fetchContracts_pending_iff this fuel next w :
  fst (fetchContracts this fuel next w) = Pending
  <-> throttled (mirrorNodeRestClient this) (requests w)
        (list_request this next) fuel = true.
Proof.
  split.
  - revert w. induction fuel as [|fuel IH]; intros w; [reflexivity|].
    cbn [throttled].
    destruct (mirrorNodeRestClient this (requests w) (list_request this next))
      as [response|error] eqn:Hr.
    + rewrite (fetchContracts_fulfil RETRY_DELAY_MS Helper_buildUrl
                 this fuel next w response Hr). discriminate.
    + cbn [is_rate_limit]. destruct (status_is error 429) eqn:H429.
      * rewrite (fetchContracts_429 RETRY_DELAY_MS Helper_buildUrl
                   this fuel next w error Hr H429).
        intros H. now apply IH in H.
      * rewrite (fetchContracts_failure RETRY_DELAY_MS Helper_buildUrl
                   this fuel next w error Hr H429). discriminate.
  - intros Hth.
    pose proof (fetchContracts_retry RETRY_DELAY_MS Helper_buildUrl
                  this fuel 0 next w Hth) as H.
    rewrite Nat.add_0_r in H. now rewrite H.
Qed.

Lemma fetchContractObject_pending_iff this fuel contractId w :
  fst (fetchContractObject this fuel contractId w) = Pending
  <-> throttled (mirrorNodeRestClient this) (requests w)
        (detail_request contractId) fuel = true.
Proof.
  split.
  - revert w. induction fuel as [|fuel IH]; intros w; [reflexivity|].
    cbn [throttled].
    destruct (mirrorNodeRestClient this (requests w)
                (detail_request contractId)) as [response|error] eqn:Hr.
    + rewrite (fetchContractObject_fulfil GET_CONTRACT_ENDPOINT RETRY_DELAY_MS
                 this fuel contractId w response Hr). discriminate.
    + cbn [is_rate_limit]. destruct (status_is error 429) eqn:H429.
      * rewrite (fetchContractObject_429 GET_CONTRACT_ENDPOINT RETRY_DELAY_MS
                   this fuel contractId w error Hr H429).
        intros H. now apply IH in H.
      * rewrite (fetchContractObject_failure GET_CONTRACT_ENDPOINT
                   RETRY_DELAY_MS this fuel contractId w error Hr H429).
        discriminate.
  - intros Hth.
    pose proof (fetchContractObject_retry GET_CONTRACT_ENDPOINT RETRY_DELAY_MS
                  this fuel 0 contractId w Hth) as H.
    rewrite Nat.add_0_r in H. now rewrite H.
Qed.

Lemma contractCallRequest_pending_iff this fuel callData w :
  fst (contractCallRequest this fuel callData w) = Pending
  <-> throttled (mirrorNodeWeb3Client this) (requests w)
        (call_request callData) fuel = true.
Proof.
  split.
  - revert w. induction fuel as [|fuel IH]; intros w; [reflexivity|].
    cbn [throttled].
    destruct (mirrorNodeWeb3Client this (requests w)
                (call_request callData)) as [response|error] eqn:Hr.
    + rewrite (contractCallRequest_fulfil CONTRACT_CALL_ENDPOINT RETRY_DELAY_MS
                 this fuel callData w response Hr). discriminate.
    + cbn [is_rate_limit]. destruct (status_is error 429) eqn:H429.
      * rewrite (contractCallRequest_429 CONTRACT_CALL_ENDPOINT RETRY_DELAY_MS
                   this fuel callData w error Hr H429).
        intros H. now apply IH in H.
      * rewrite (contractCallRequest_failure CONTRACT_CALL_ENDPOINT
                   RETRY_DELAY_MS this fuel callData w error Hr H429).
        discriminate.
  - intros Hth.
    pose proof (contractCallRequest_retry CONTRACT_CALL_ENDPOINT RETRY_DELAY_MS
                  this fuel 0 callData w Hth) as H.
    rewrite Nat.add_0_r in H. now rewrite H.
Qed.

(** X2.  The only way an operation fails to settle is a sustained rate
    limit: after [fuel] attempts it is still pending exactly when every
    one of those attempts was answered 429. *)
Theorem pending_exactly_while_throttled this fuel w :
  (forall next,
      fst (fetchContracts this fuel next w) = Pending
      <-> throttled (mirrorNodeRestClient this) (requests w)
            (list_request this next) fuel = true)
  /\ (forall contractId,
        fst (fetchContractObject this fuel contractId w) = Pending
        <-> throttled (mirrorNodeRestClient this) (requests w)
              (detail_request contractId) fuel = true)
  /\ (forall callData,
        fst (contractCallRequest this fuel callData w) = Pending
        <-> throttled (mirrorNodeWeb3Client this) (requests w)
              (call_request callData) fuel = true).
Proof.
  split; [|split]; intros.
  - apply fetchContracts_pending_iff.
  - apply fetchContractObject_pending_iff.
  - apply contractCallRequest_pending_iff.
Qed.

(** X3.  On the list and detail paths a failure that is neither a 429 nor
    a 400 (another status, a network error), met at once or after any
    number of 429s, resolves to [null] and prints that error, once. *)
Theorem list_and_detail_failures_are_reported this n fuel w error :
  (n < fuel)%nat ->
  status_is error 429 = false ->
  status_is error 400 = false ->
  (forall next,
      throttled (mirrorNodeRestClient this) (requests w)
        (list_request this next) n = true ->
      reply_after (mirrorNodeRestClient this) (requests w)
        (list_request this next) n = Reject error ->
      fst (fetchContracts this fuel next w) = Resolved JNull
      /\ error_logs (snd (fetchContracts this fuel next w))
         = LogError error :: error_logs w)
  /\ (forall contractId,
        throttled (mirrorNodeRestClient this) (requests w)
          (detail_request contractId) n = true ->
        reply_after (mirrorNodeRestClient this) (requests w)
          (detail_request contractId) n = Reject error ->
        fst (fetchContractObject this fuel contractId w) = Resolved JNull
        /\ error_logs (snd (fetchContractObject this fuel contractId w))
           = LogError error :: error_logs w).
Proof.
  intros Hlt H429 H400. split.
  - intros next Hth Hlast.
    assert (Hnot : is_rate_limit
                     (reply_after (mirrorNodeRestClient this) (requests w)
                        (list_request this next) n) = false)
      by now rewrite Hlast.
    split.
    + rewrite (fetchContracts_after_retries RETRY_DELAY_MS Helper_buildUrl
                 this n fuel next w Hlt Hth Hnot).
      now rewrite Hlast.
    + rewrite (fetchContracts_settled_world this n fuel next w Hlt Hth Hnot).
      rewrite Hlast. cbn [reported]. rewrite H400.
      unfold error_logs at 1. cbn.
      now rewrite <- (throttle_steps_error_logs n RETRY_DELAY_MS
                        (list_request this next) [fetching_line this next] w
                        eq_refl).
  - intros contractId Hth Hlast.
    assert (Hnot : is_rate_limit
                     (reply_after (mirrorNodeRestClient this) (requests w)
                        (detail_request contractId) n) = false)
      by now rewrite Hlast.
    split.
    + rewrite (fetchContractObject_after_retries GET_CONTRACT_ENDPOINT
                 RETRY_DELAY_MS this n fuel contractId w Hlt Hth Hnot).
      now rewrite Hlast.
    + rewrite (fetchContractObject_settled_world this n fuel contractId w
                 Hlt Hth Hnot).
      rewrite Hlast. cbn [reported]. rewrite H400.
      unfold error_logs at 1. cbn.
      now rewrite <- (throttle_steps_error_logs n RETRY_DELAY_MS
                        (detail_request contractId) [] w eq_refl).
Qed.

(** X4.  A success whose body is [null] or [undefined] has no [result] to
    read: [contractCallRequest] resolves to [null], and does not ask
    again. *)
Theorem call_with_empty_body_resolves_to_null this n fuel callData w response :
  (n < fuel)%nat ->
  throttled (mirrorNodeWeb3Client this) (requests w)
    (call_request callData) n = true ->
  reply_after (mirrorNodeWeb3Client this) (requests w)
    (call_request callData) n = Fulfil response ->
  body response = JNull \/ body response = JUndefined ->
  fst (contractCallRequest this fuel callData w) = Resolved JNull
  /\ requests (snd (contractCallRequest this fuel callData w))
     = repeat (call_request callData) (S n) ++ requests w.
Proof.
  intros Hlt Hth Hlast Hbody.
  assert (Hnot : is_rate_limit
                   (reply_after (mirrorNodeWeb3Client this) (requests w)
                      (call_request callData) n) = false)
    by now rewrite Hlast.
  split.
  - rewrite (contractCallRequest_after_retries CONTRACT_CALL_ENDPOINT
               RETRY_DELAY_MS this n fuel callData w Hlt Hth Hnot).
    rewrite Hlast. unfold call_result.
    now destruct Hbody as [-> | ->].
  - rewrite (contractCallRequest_settled_world this n fuel callData w
               Hlt Hth Hnot).
    apply settled_requests.
Qed.

(** **** The two clients *)

Lemma fetchContracts_ignores_web3 this web3 fuel next w :
  fetchContracts
    (mkService (mirrorNodeRestClient this) web3 (scanContractLimit this))
    fuel next w
  = fetchContracts this fuel next w.
Proof.
  revert w. induction fuel as [|fuel IH]; intros w; [reflexivity|].
  set (this' := mkService (mirrorNodeRestClient this) web3
                  (scanContractLimit this)) in *.
  destruct (mirrorNodeRestClient this (requests w) (list_request this next))
    as [response|error] eqn:Hr.
  - rewrite (fetchContracts_fulfil RETRY_DELAY_MS Helper_buildUrl
               this' fuel next w response Hr).
    now rewrite (fetchContracts_fulfil RETRY_DELAY_MS Helper_buildUrl
                   this fuel next w response Hr).
  - destruct (status_is error 429) eqn:H429.
    + rewrite (fetchContracts_429 RETRY_DELAY_MS Helper_buildUrl
                 this' fuel next w error Hr H429).
      rewrite (fetchContracts_429 RETRY_DELAY_MS Helper_buildUrl
                 this fuel next w error Hr H429).
      apply IH.
    + rewrite (fetchContracts_failure RETRY_DELAY_MS Helper_buildUrl
                 this' fuel next w error Hr H429).
      now rewrite (fetchContracts_failure RETRY_DELAY_MS Helper_buildUrl
                     this fuel next w error Hr H429).
Qed.

Lemma fetchContractObject_ignores_web3 this web3 limit fuel contractId w :
  fetchContractObject (mkService (mirrorNodeRestClient this) web3 limit)
    fuel contractId w
  = fetchContractObject this fuel contractId w.
Proof.
  revert w. induction fuel as [|fuel IH]; intros w; [reflexivity|].
  set (this' := mkService (mirrorNodeRestClient this) web3 limit) in *.
  destruct (mirrorNodeRestClient this (requests w)
              (detail_request contractId)) as [response|error] eqn:Hr.
  - rewrite (fetchContractObject_fulfil GET_CONTRACT_ENDPOINT RETRY_DELAY_MS
               this' fuel contractId w response Hr).
    now rewrite (fetchContractObject_fulfil GET_CONTRACT_ENDPOINT
                   RETRY_DELAY_MS this fuel contractId w response Hr).
  - destruct (status_is error 429) eqn:H429.
    + rewrite (fetchContractObject_429 GET_CONTRACT_ENDPOINT RETRY_DELAY_MS
                 this' fuel contractId w error Hr H429).
      rewrite (fetchContractObject_429 GET_CONTRACT_ENDPOINT RETRY_DELAY_MS
                 this fuel contractId w error Hr H429).
      apply IH.
    + rewrite (fetchContractObject_failure GET_CONTRACT_ENDPOINT
                 RETRY_DELAY_MS this' fuel contractId w error Hr H429).
      now rewrite (fetchContractObject_failure GET_CONTRACT_ENDPOINT
                     RETRY_DELAY_MS this fuel contractId w error Hr H429).
Qed.

Lemma contractCallRequest_ignores_rest this rest limit fuel callData w :
  contractCallRequest (mkService rest (mirrorNodeWeb3Client this) limit)
    fuel callData w
  = contractCallRequest this fuel callData w.
Proof.
  revert w. induction fuel as [|fuel IH]; intros w; [reflexivity|].
  set (this' := mkService rest (mirrorNodeWeb3Client this) limit) in *.
  destruct (mirrorNodeWeb3Client this (requests w) (call_request callData))
    as [response|error] eqn:Hr.
  - rewrite (contractCallRequest_fulfil CONTRACT_CALL_ENDPOINT RETRY_DELAY_MS
               this' fuel callData w response Hr).
    now rewrite (contractCallRequest_fulfil CONTRACT_CALL_ENDPOINT
                   RETRY_DELAY_MS this fuel callData w response Hr).
  - destruct (status_is error 429) eqn:H429.
    + rewrite (contractCallRequest_429 CONTRACT_CALL_ENDPOINT RETRY_DELAY_MS
                 this' fuel callData w error Hr H429).
      rewrite (contractCallRequest_429 CONTRACT_CALL_ENDPOINT RETRY_DELAY_MS
                 this fuel callData w error Hr H429).
      apply IH.
    + rewrite (contractCallRequest_failure CONTRACT_CALL_ENDPOINT
                 RETRY_DELAY_MS this' fuel callData w error Hr H429).
      now rewrite (contractCallRequest_failure CONTRACT_CALL_ENDPOINT
                     RETRY_DELAY_MS this fuel callData w error Hr H429).
Qed.

(** X5.  The list and detail fetches go through the REST client only, and
    the probe call through the web3 client only: swapping the other client
    (and, off the list path, the page-size bound) changes neither the
    result nor anything the operation does. *)
Theorem clients_are_kept_apart this rest web3 limit fuel w :
  (forall next,
      fetchContracts
        (mkService (mirrorNodeRestClient this) web3 (scanContractLimit this))
        fuel next w
      = fetchContracts this fuel next w)
  /\ (forall contractId,
        fetchContractObject
          (mkService (mirrorNodeRestClient this) web3 limit) fuel contractId w
        = fetchContractObject this fuel contractId w)
  /\ (forall callData,
        contractCallRequest
          (mkService rest (mirrorNodeWeb3Client this) limit) fuel callData w
        = contractCallRequest this fuel callData w).
Proof.
  split; [|split]; intros.
  - apply fetchContracts_ignores_web3.
  - apply fetchContractObject_ignores_web3.
  - apply contractCallRequest_ignores_rest.
Qed.

End Accounting.

(** The detail fetch of contract 0.0.999, answered 429 twice and then 200:
    three requests, two waits of one second. *)
Lemma settled_run_accounting_witness :
  let this := flaky 2 (mkResponse 200 (JObj [("bytecode", JStr "0x6080")])) in
  (2 < 5)%nat
  /\ requests (snd (fetchContractObject "/api/v1/contracts" 1000 this
                     5 "0.0.999" empty_world))
     = repeat (detail_request "/api/v1/contracts" "0.0.999") 3 ++ []
  /\ sleeps (snd (fetchContractObject "/api/v1/contracts" 1000 this
                    5 "0.0.999" empty_world))
     = repeat 1000%Z 2 ++ [].
Proof.
  cbv zeta. split; [lia|].
  destruct (settled_run_accounting "/api/v1/contracts"
              "/api/v1/contracts/call" 1000 (buildUrl "/api/v1/contracts")
              (flaky 2 (mkResponse 200 (JObj [("bytecode", JStr "0x6080")])))
              2 5 empty_world ltac:(lia)) as (_ & H & _).
  apply H; reflexivity.
Defined.

(** The first page, answered 429 once and then 503. *)
Lemma list_and_detail_failures_are_reported_witness :
  let this := failing_after 1 (http_error 503) in
  (1 < 3)%nat
  /\ status_is (http_error 503) 429 = false
  /\ status_is (http_error 503) 400 = false
  /\ fst (fetchContracts 1000 (buildUrl "/api/v1/contracts") this
            3 None empty_world) = Resolved JNull
  /\ error_logs (snd (fetchContracts 1000 (buildUrl "/api/v1/contracts") this
                        3 None empty_world))
     = LogError (http_error 503) :: error_logs empty_world.
Proof.
  cbv zeta. split; [lia|]. split; [reflexivity|]. split; [reflexivity|].
  destruct (list_and_detail_failures_are_reported "/api/v1/contracts" 1000
              (buildUrl "/api/v1/contracts")
              (failing_after 1 (http_error 503)) 1 3 empty_world
              (http_error 503) ltac:(lia) eq_refl eq_refl) as (H & _).
  apply (H None); reflexivity.
Defined.

Lemma call_with_empty_body_resolves_to_null_witness :
  let response := mkResponse 200 JNull in
  (1 < 2)%nat
  /\ (body response = JNull \/ body response = JUndefined)
  /\ fst (contractCallRequest "/api/v1/contracts/call" 1000 (flaky 1 response)
            2 probe empty_world) = Resolved JNull
  /\ requests (snd (contractCallRequest "/api/v1/contracts/call" 1000
                      (flaky 1 response) 2 probe empty_world))
     = repeat (call_request "/api/v1/contracts/call" probe) 2 ++ [].
Proof.
  cbv zeta. split; [lia|]. split; [left; reflexivity|].
  apply (call_with_empty_body_resolves_to_null "/api/v1/contracts/call" 1000
           (flaky 1 (mkResponse 200 JNull)) 1 2 probe empty_world
           (mkResponse 200 JNull));
    [lia | reflexivity | reflexivity | left; reflexivity].
Defined.

End ScannerTheory.

(* ================================================================== *)
(** ** Properties of the wallet API *)
(* ================================================================== *)

Module WalletTheory.
Import Js Wallet.

Local Open Scope run_scope.

(** A [try] whose [catch] block always returns, always returns. *)
Lemma try_catch_returns {A} (body : Run A) (handler : JsVal -> Run A) w :
  (forall e w', exists r, fst (handler e w') = Returned r) ->
  exists r, fst (try_catch body handler w) = Returned r.
Proof.
  intros Hh. unfold try_catch.
  destruct (body w) as [[a|e] w']; [now exists a | apply Hh].
Qed.

Section Properties.

Variable HEDERA_NETWORKS : JsVal.

(** The four functions whose [catch] block only prints and returns. *)
Lemma getBalance_returns walletProvider account w :
  exists r, fst (getBalance walletProvider account w) = Returned r.
Proof.
  apply try_catch_returns. intros e w'. now eexists.
Qed.

Lemma getCurrentChainId_returns walletProvider w :
  exists r, fst (getCurrentChainId walletProvider w) = Returned r.
Proof.
  apply try_catch_returns. intros e w'. now eexists.
Qed.

Lemma requestAccount_returns walletProvider w :
  exists r, fst (requestAccount walletProvider w) = Returned r.
Proof.
  apply try_catch_returns. intros e w'. now eexists.
Qed.

Lemma addEthereumChain_returns walletProvider w :
  exists r, fst (addEthereumChain HEDERA_NETWORKS walletProvider w) = Returned r.
Proof.
  apply try_catch_returns. intros e w'. now eexists.
Qed.

(** What each of them returns: the payload when [send] is fulfilled, the
    error under [err] when it fails. *)
Lemma getBalance_result walletProvider account w :
  fst (getBalance walletProvider account w)
  = match walletProvider (sent w)
            (mkRpc "eth_getBalance" (JArr [JStr account])) with
    | Fulfilled balance => Returned (result_balance balance)
    | Failed error => Returned (result_err error)
    end.
Proof.
  unfold getBalance, try_catch, bind, send. cbn.
  now destruct (walletProvider _ _).
Qed.

Lemma getCurrentChainId_result walletProvider w :
  fst (getCurrentChainId walletProvider w)
  = match walletProvider (sent w) (mkRpc "eth_chainId" (JArr [])) with
    | Fulfilled chainId => Returned (result_currentChainId chainId)
    | Failed error => Returned (result_err error)
    end.
Proof.
  unfold getCurrentChainId, try_catch, bind, send. cbn.
  now destruct (walletProvider _ _).
Qed.

Lemma requestAccount_result walletProvider w :
  fst (requestAccount walletProvider w)
  = match walletProvider (sent w) (mkRpc "eth_requestAccounts" (JArr [])) with
    | Fulfilled accounts => Returned (result_accounts accounts)
    | Failed error => Returned (result_err error)
    end.
Proof.
  unfold requestAccount, try_catch, bind, send. cbn.
  now destruct (walletProvider _ _).
Qed.

(** [switchToHederaTestnet] returns when the switch goes through, and when
    it fails with an error whose [error.code] can be read. *)
Lemma switchToHederaTestnet_returns walletProvider w :
  (forall error,
      walletProvider (sent w) switch_call = Failed error ->
      exists inner code,
        get_prop error "error" = Some inner
        /\ get_prop inner "code" = Some code) ->
  exists r,
    fst (switchToHederaTestnet HEDERA_NETWORKS walletProvider w) = Returned r.
Proof.
  intros Hreadable.
  unfold switchToHederaTestnet, try_catch at 1, bind at 1, send.
  fold switch_call.
  destruct (walletProvider (sent w) switch_call) as [value|error] eqn:Hs;
    cbn; [now eexists|].
  destruct (Hreadable error eq_refl) as (inner & code & Hinner & Hcode).
  unfold bind, prop. rewrite Hinner. cbn. rewrite Hcode. cbn.
  destruct (strict_eq_num code 4902).
  - apply try_catch_returns. intros e w'. now eexists.
  - now eexists.
Qed.

(** It throws when the switch fails with an error whose [error] property
    is missing: the [catch] block reads [error.error.code]. *)
Lemma switchToHederaTestnet_throws walletProvider w error :
  walletProvider (sent w) switch_call = Failed error ->
  get_prop error "error" = Some JUndefined ->
  switchToHederaTestnet HEDERA_NETWORKS walletProvider w
  = (Threw (type_error "code"),
     mkWorld (switch_call :: sent w) (console w) (constructed w)).
Proof.
  intros Hs Hinner.
  unfold switchToHederaTestnet, try_catch, bind, send. fold switch_call.
  rewrite Hs. unfold prop. now rewrite Hinner.
Qed.

(** C8 at a wallet whose user dismisses the network-switch prompt:
    [switchToHederaTestnet] lets a [TypeError] out of its [catch] block;
    the other four functions return whatever the provider does. *)
Theorem switchToHederaTestnet_throws_on_rejected_prompt :
  switchToHederaTestnet HEDERA_NETWORKS (failing action_rejected) empty_world
  = (Threw (type_error "code"), mkWorld [switch_call] [] [])
  /\ (forall walletProvider w,
        (forall account,
            exists r, fst (getBalance walletProvider account w) = Returned r)
        /\ (exists r, fst (getCurrentChainId walletProvider w) = Returned r)
        /\ (exists r, fst (requestAccount walletProvider w) = Returned r)
        /\ (exists r, fst (addEthereumChain HEDERA_NETWORKS walletProvider w)
                      = Returned r)).
Proof.
  split; [reflexivity|].
  intros walletProvider w. repeat split.
  - intros account. apply getBalance_returns.
  - apply getCurrentChainId_returns.
  - apply requestAccount_returns.
  - apply addEthereumChain_returns.
Qed.

Variable ethers_BrowserProvider : JsVal -> Outcome BrowserProvider.

(** Whatever falsy value stands where the wallet object should be, no
    provider is built. *)
Lemma getWalletProvider_falsy window w walletObject :
  fst (getWalletObject window w) = Returned walletObject ->
  truthy walletObject = false ->
  getWalletProvider ethers_BrowserProvider window w
  = (Returned (result_err (JStr "!HEDERA")), w).
Proof.
  unfold getWalletProvider, bind, getWalletObject, prop.
  destruct (is_defined window).
  - destruct (get_prop window "ethereum") as [ethereum|]; cbn;
      [|discriminate].
    intros [= ->] ->. reflexivity.
  - cbn. intros [= <-] _. reflexivity.
Qed.

(** C10.  Without a wallet ([window] undefined, or [window.ethereum]
    undefined) [getWalletProvider] returns [{ err: '!HEDERA' }] and leaves
    the world as it was: nothing is thrown and no provider is built. *)
Theorem getWalletProvider_without_wallet window w :
  window = JUndefined \/ get_prop window "ethereum" = Some JUndefined ->
  getWalletProvider ethers_BrowserProvider window w
  = (Returned (result_err (JStr "!HEDERA")), w).
Proof.
  intros [-> | Habsent].
  - reflexivity.
  - apply (getWalletProvider_falsy window w JUndefined); [|reflexivity].
    unfold getWalletObject, bind, prop. rewrite Habsent.
    destruct window; try reflexivity; discriminate.
Qed.

End Properties.

Lemma getWalletProvider_without_wallet_witness :
  let window := JObj [("location", JStr "http://localhost:3000")] in
  (window = JUndefined \/ get_prop window "ethereum" = Some JUndefined)
  /\ getWalletProvider wrap_any window empty_world
     = (Returned (result_err (JStr "!HEDERA")), empty_world).
Proof.
  cbv zeta. split; [right; reflexivity|].
  apply (getWalletProvider_without_wallet wrap_any); right; reflexivity.
Defined.

(** *** Further properties of the wallet functions *)

Section Calls.

Variable HEDERA_NETWORKS : JsVal.

(** X6.  Each of the three queries sends one call, with its own method,
    and reports what the provider answers: the value under the field of
    the query when the call is fulfilled, the thrown value under [err]
    when it fails.  Only [getBalance] prints the error. *)
Theorem queries_report_what_the_provider_answers walletProvider w :
  (forall account,
      let rpc := mkRpc "eth_getBalance" (JArr [JStr account]) in
      getBalance walletProvider account w
      = match walletProvider (sent w) rpc with
        | Fulfilled balance =>
            (Returned (result_balance balance), after_call rpc w)
        | Failed error =>
            (Returned (result_err error),
             after_line (mkLine "" error) (after_call rpc w))
        end)
  /\ (let rpc := mkRpc "eth_chainId" (JArr []) in
      getCurrentChainId walletProvider w
      = match walletProvider (sent w) rpc with
        | Fulfilled chainId =>
            (Returned (result_currentChainId chainId), after_call rpc w)
        | Failed error => (Returned (result_err error), after_call rpc w)
        end)
  /\ (let rpc := mkRpc "eth_requestAccounts" (JArr []) in
      requestAccount walletProvider w
      = match walletProvider (sent w) rpc with
        | Fulfilled accounts =>
            (Returned (result_accounts accounts), after_call rpc w)
        | Failed error => (Returned (result_err error), after_call rpc w)
        end).
Proof.
  split; [|split]; cbv zeta; intros.
  - unfold getBalance, try_catch, bind, send.
    now destruct (walletProvider _ _).
  - unfold getCurrentChainId, try_catch, bind, send.
    now destruct (walletProvider _ _).
  - unfold requestAccount, try_catch, bind, send.
    now destruct (walletProvider _ _).
Qed.

(** X7.  With a testnet entry in [HEDERA_NETWORKS], [addEthereumChain]
    sends one [wallet_addEthereumChain] call whose only parameter holds the
    chain id, name and currency of the entry and its RPC and explorer URLs
    each wrapped in a list; it returns [{ err: null }] when the wallet
    accepts, and prints and returns the error when it does not. *)
Theorem addEthereumChain_sends_the_testnet walletProvider w testnet :
  get_prop HEDERA_NETWORKS "testnet" = Some (JObj testnet) ->
  addEthereumChain HEDERA_NETWORKS walletProvider w
  = match walletProvider (sent w) (add_call testnet) with
    | Fulfilled _ =>
        (Returned (result_err JNull), after_call (add_call testnet) w)
    | Failed error =>
        (Returned (result_err error),
         after_line (mkLine "Error adding Hedera Testnet chain:" error)
           (after_call (add_call testnet) w))
    end.
Proof.
  intros Htestnet.
  unfold addEthereumChain, try_catch, bind, prop, send.
  rewrite Htestnet. cbn.
  fold (hederaTestnetParams testnet). fold (add_call testnet).
  now destruct (walletProvider (sent w) (add_call testnet)).
Qed.

(** A [try] around a computation that returns is that computation. *)
Lemma try_catch_of_returning {A} (m : Run A) (handler : JsVal -> Run A) w :
  (exists r, fst (m w) = Returned r) ->
  try_catch (result <- m ;; ret result) handler w = m w.
Proof.
  intros (r & Hr). unfold try_catch, bind, ret.
  destruct (m w) as [[a|e] w']; [reflexivity | discriminate].
Qed.

(** The [catch] block of [switchToHederaTestnet], once [error.error.code]
    has been read. *)
Lemma switchToHederaTestnet_caught walletProvider w error code :
  walletProvider (sent w) switch_call = Failed error ->
  error_code error = Some code ->
  switchToHederaTestnet HEDERA_NETWORKS walletProvider w
  = if strict_eq_num code 4902
    then addEthereumChain HEDERA_NETWORKS walletProvider
           (after_call switch_call w)
    else (Returned (result_err error),
          after_line (mkLine "Error switching to Hedera Testnet chain:" error)
            (after_call switch_call w)).
Proof.
  intros Hs Hcode. unfold error_code in Hcode.
  destruct (get_prop error "error") as [inner|] eqn:Hinner; [|discriminate].
  unfold switchToHederaTestnet, try_catch at 1, bind at 1, send.
  fold switch_call. rewrite Hs.
  unfold bind at 1, prop at 1. rewrite Hinner. cbn [ret].
  unfold bind at 1, prop at 1. rewrite Hcode. cbn [ret].
  destruct (strict_eq_num code 4902); [|reflexivity].
  apply try_catch_of_returning. apply addEthereumChain_returns.
Qed.

(** X8.  When the switch fails with error code 4902 (the wallet does not
    know the chain), [switchToHederaTestnet] goes on to
    [addEthereumChain] and returns what that returns. *)
Theorem switch_falls_back_to_adding_the_chain walletProvider w error code :
  walletProvider (sent w) switch_call = Failed error ->
  error_code error = Some code ->
  strict_eq_num code 4902 = true ->
  switchToHederaTestnet HEDERA_NETWORKS walletProvider w
  = addEthereumChain HEDERA_NETWORKS walletProvider (after_call switch_call w).
Proof.
  intros Hs Hcode H4902.
  rewrite (switchToHederaTestnet_caught walletProvider w error code Hs Hcode).
  now rewrite H4902.
Qed.

(** X9.  When the switch fails with any other readable error code,
    [switchToHederaTestnet] prints the error and returns it under [err];
    it sends nothing more to the wallet. *)
Theorem switch_reports_other_failures walletProvider w error code :
  walletProvider (sent w) switch_call = Failed error ->
  error_code error = Some code ->
  strict_eq_num code 4902 = false ->
  switchToHederaTestnet HEDERA_NETWORKS walletProvider w
  = (Returned (result_err error),
     after_line (mkLine "Error switching to Hedera Testnet chain:" error)
       (after_call switch_call w)).
Proof.
  intros Hs Hcode H4902.
  rewrite (switchToHederaTestnet_caught walletProvider w error code Hs Hcode).
  now rewrite H4902.
Qed.

(** [addEthereumChain] sends at most one call, the request to add the
    chain, whatever [HEDERA_NETWORKS] holds. *)
Lemma addEthereumChain_calls walletProvider w :
  exists more,
    sent (snd (addEthereumChain HEDERA_NETWORKS walletProvider w))
      = more ++ sent w
    /\ (List.length more <= 1)%nat
    /\ Forall (fun rpc => method rpc = "wallet_addEthereumChain") more.
Proof.
  unfold addEthereumChain, try_catch, bind, prop, send, ret, throw,
    console_error.
  repeat match goal with
         | |- context [get_prop ?a ?b] =>
             destruct (get_prop a b); cbn [fst snd sent]
         end;
    try (exists []; repeat split; [cbn; lia | constructor]).
  match goal with
  | |- context [walletProvider ?h ?rpc] =>
      destruct (walletProvider h rpc); cbn [fst snd sent];
        exists [rpc]; repeat split; try (cbn; lia);
        repeat constructor
  end.
Qed.

(** X11.  Whatever the wallet does, [switchToHederaTestnet] sends the
    switch request first and at most one more call after it, and that one
    can only be the request to add the chain. *)
Theorem switch_sends_at_most_one_more_call walletProvider w :
  exists more,
    sent (snd (switchToHederaTestnet HEDERA_NETWORKS walletProvider w))
      = more ++ switch_call :: sent w
    /\ (List.length more <= 1)%nat
    /\ Forall (fun rpc => method rpc = "wallet_addEthereumChain") more.
Proof.
  destruct (walletProvider (sent w) switch_call) as [value|error] eqn:Hs.
  - exists []. unfold switchToHederaTestnet, try_catch, bind, send.
    fold switch_call. rewrite Hs.
    repeat split; [cbn; lia | constructor].
  - destruct (error_code error) as [code|] eqn:Hcode.
    + rewrite (switchToHederaTestnet_caught walletProvider w error code
                 Hs Hcode).
      destruct (strict_eq_num code 4902).
      * apply (addEthereumChain_calls walletProvider
                 (after_call switch_call w)).
      * exists []. repeat split; [cbn; lia | constructor].
    + exists []. unfold error_code in Hcode.
      unfold switchToHederaTestnet, try_catch, bind, send, prop.
      fold switch_call. rewrite Hs.
      destruct (get_prop error "error") as [inner|]; cbn.
      * rewrite Hcode. repeat split; [cbn; lia | constructor].
      * repeat split; [cbn; lia | constructor].
Qed.

Variable ethers_BrowserProvider : JsVal -> Outcome BrowserProvider.

(** X10.  With a wallet injected ([window.ethereum] truthy),
    [getWalletProvider] builds one provider, around that very object, and
    returns it under [walletProvider]; what the constructor throws is
    thrown on. *)
Theorem getWalletProvider_wraps_the_wallet window w ethereum :
  get_prop window "ethereum" = Some ethereum ->
  truthy ethereum = true ->
  getWalletProvider ethers_BrowserProvider window w
  = (match ethers_BrowserProvider ethereum with
     | Returned walletProvider =>
         Returned (result_walletProvider walletProvider)
     | Threw e => Threw e
     end,
     mkWorld (sent w) (console w) (ethereum :: constructed w)).
Proof.
  intros Hwallet Htruthy.
  assert (Hdefined : is_defined window = true)
    by (destruct window; try reflexivity; discriminate).
  unfold getWalletProvider, getWalletObject, bind at 1.
  rewrite Hdefined. unfold bind at 1, prop. rewrite Hwallet. cbn [ret].
  rewrite Htruthy. cbn [negb].
  unfold bind, new_BrowserProvider, ret.
  now destruct (ethers_BrowserProvider ethereum).
Qed.

End Calls.

Lemma addEthereumChain_sends_the_testnet_witness :
  get_prop sample_networks "testnet" = Some (JObj sample_testnet)
  /\ addEthereumChain sample_networks (fulfilling JNull) empty_world
     = (Returned (result_err JNull),
        after_call (add_call sample_testnet) empty_world).
Proof.
  split; [reflexivity|].
  apply (addEthereumChain_sends_the_testnet sample_networks
           (fulfilling JNull) empty_world). reflexivity.
Defined.

(** A wallet that does not know the chain: the switch is followed by the
    request to add it. *)
Lemma switch_falls_back_to_adding_the_chain_witness :
  without_hedera (sent empty_world) switch_call = Failed (rpc_error 4902)
  /\ error_code (rpc_error 4902) = Some (JNum 4902)
  /\ strict_eq_num (JNum 4902) 4902 = true
  /\ switchToHederaTestnet sample_networks without_hedera empty_world
     = addEthereumChain sample_networks without_hedera
         (after_call switch_call empty_world).
Proof.
  split; [reflexivity|]. split; [reflexivity|]. split; [reflexivity|].
  apply (switch_falls_back_to_adding_the_chain sample_networks
           without_hedera empty_world (rpc_error 4902) (JNum 4902));
    reflexivity.
Defined.

(** A wallet in which a request is already pending answers -32002. *)
Lemma switch_reports_other_failures_witness :
  failing (rpc_error (-32002)) (sent empty_world) switch_call
    = Failed (rpc_error (-32002))
  /\ error_code (rpc_error (-32002)) = Some (JNum (-32002))
  /\ strict_eq_num (JNum (-32002)) 4902 = false
  /\ switchToHederaTestnet sample_networks (failing (rpc_error (-32002)))
       empty_world
     = (Returned (result_err (rpc_error (-32002))),
        after_line (mkLine "Error switching to Hedera Testnet chain:"
                      (rpc_error (-32002)))
          (after_call switch_call empty_world)).
Proof.
  split; [reflexivity|]. split; [reflexivity|]. split; [reflexivity|].
  apply (switch_reports_other_failures sample_networks
           (failing (rpc_error (-32002))) empty_world
           (rpc_error (-32002)) (JNum (-32002)));
    reflexivity.
Defined.

Lemma getWalletProvider_wraps_the_wallet_witness :
  let ethereum := JObj [("isMetaMask", JBool true)] in
  let window := JObj [("ethereum", ethereum)] in
  get_prop window "ethereum" = Some ethereum
  /\ truthy ethereum = true
  /\ getWalletProvider wrap_any window empty_world
     = (Returned (result_walletProvider (fun _ _ => Fulfilled JNull)),
        mkWorld [] [] [ethereum]).
Proof.
  cbv zeta. split; [reflexivity|]. split; [reflexivity|].
  apply (getWalletProvider_wraps_the_wallet wrap_any
           (JObj [("ethereum", JObj [("isMetaMask", JBool true)])])
           empty_world (JObj [("isMetaMask", JBool true)]));
    reflexivity.
Defined.

End WalletTheory.
